(** * pdfTallyConverter: the conversion, validation and export pipeline
    of [backend/main.py], embedded in Rocq.

    A Python [str] is modelled as a [string] whose characters are code
    points below 256. The Python and pandas library calls the program
    makes are modelled in [Py], [Dict], [Pandas] and [ET] from their
    documented behaviour; the functions of [main.py] follow in
    [Validate], [Exporter] and [Convert], and the theorems about them
    after all definitions. *)

From Stdlib Require Import Ascii.
From stdpp Require Import gmap strings list pretty sorting.

Set Warnings "-abstract-large-number,-register-all".

(** ** Python built-ins used by [main.py] *)
Module Py.

Definition code (c : ascii) : nat := nat_of_ascii c.

(** [str.isspace] on one character (code points below 256). *)
Definition isspace (c : ascii) : bool :=
  let n := code c in
  ((9 <=? n) && (n <=? 13)) || ((28 <=? n) && (n <=? 32))
  || (n =? 133) || (n =? 160).

Definition isdecimal (c : ascii) : bool :=
  let n := code c in (48 <=? n) && (n <=? 57).

Definition digit_value (c : ascii) : nat := code c - 48.

Definition is_empty (s : string) : bool :=
  match s with EmptyString => true | String _ _ => false end.

(** Every character of [s] satisfies [p]. *)
Fixpoint all_chars (p : ascii -> bool) (s : string) : bool :=
  match s with
  | EmptyString => true
  | String c s' => p c && all_chars p s'
  end.

Fixpoint lstrip (s : string) : string :=
  match s with
  | EmptyString => EmptyString
  | String c s' => if isspace c then lstrip s' else s
  end.

Fixpoint rstrip (s : string) : string :=
  match s with
  | EmptyString => EmptyString
  | String c s' =>
      let r := rstrip s' in
      if isspace c && is_empty r then EmptyString else String c r
  end.

(** [s.strip()] *)
Definition strip (s : string) : string := rstrip (lstrip s).

(** [s.replace(c, '')] for a one-character [c]. *)
Fixpoint remove_char (c : ascii) (s : string) : string :=
  match s with
  | EmptyString => EmptyString
  | String d s' =>
      if Ascii.eqb d c then remove_char c s' else String d (remove_char c s')
  end.

(** [s.split(sep)] for a one-character separator: never an empty list. *)
Fixpoint split_char (sep : ascii) (s : string) : list string :=
  match s with
  | EmptyString => [EmptyString]
  | String c s' =>
      if Ascii.eqb c sep then EmptyString :: split_char sep s'
      else match split_char sep s' with
           | [] => [String c EmptyString]
           | w :: ws => String c w :: ws
           end
  end.

(** [s.split()]: the maximal runs of non-whitespace characters. *)
Fixpoint split_ws_go (cur : option string) (s : string) : list string :=
  match s with
  | EmptyString => match cur with Some w => [w] | None => [] end
  | String c s' =>
      if isspace c then
        match cur with
        | Some w => w :: split_ws_go None s'
        | None => split_ws_go None s'
        end
      else
        split_ws_go (Some (match cur with
                           | Some w => w +:+ String c EmptyString
                           | None => String c EmptyString
                           end)) s'
  end.

Definition split_ws (s : string) : list string := split_ws_go None s.

Fixpoint startswith (p s : string) : bool :=
  match p, s with
  | EmptyString, _ => true
  | String a p', String b s' => Ascii.eqb a b && startswith p' s'
  | String _ _, EmptyString => false
  end.

(** [sub in s] *)
Fixpoint contains (sub s : string) : bool :=
  startswith sub s
  || match s with
     | EmptyString => false
     | String _ s' => contains sub s'
     end.

(** [str.lower] on one character (code points below 256). *)
Definition lower_char (c : ascii) : ascii :=
  let n := code c in
  if ((65 <=? n) && (n <=? 90))
     || ((192 <=? n) && (n <=? 222) && negb (n =? 215))
  then ascii_of_nat (n + 32) else c.

Fixpoint lower (s : string) : string :=
  match s with
  | EmptyString => EmptyString
  | String c s' => String (lower_char c) (lower s')
  end.

Fixpoint rfind_go (c : ascii) (s : string) (i : nat) (last : option nat)
  : option nat :=
  match s with
  | EmptyString => last
  | String d s' =>
      rfind_go c s' (S i) (if Ascii.eqb d c then Some i else last)
  end.

(** [s.rfind(c)], with [None] for Python's [-1]. *)
Definition rfind (c : ascii) (s : string) : option nat := rfind_go c s 0 None.

Fixpoint take_str (n : nat) (s : string) : string :=
  match n, s with
  | S n', String c s' => String c (take_str n' s')
  | _, _ => EmptyString
  end.

Fixpoint drop_str (n : nat) (s : string) : string :=
  match n, s with
  | S n', String _ s' => drop_str n' s'
  | _, _ => s
  end.

(** The scan of [genericpath._splitext] over the base name: is there a
    character other than the dot at an index in [from, dot)? *)
Fixpoint has_non_dot (s : string) (from len : nat) : bool :=
  match len with
  | O => false
  | S len' =>
      match drop_str from s with
      | String c _ =>
          if Ascii.eqb c "."%char then has_non_dot s (S from) len' else true
      | EmptyString => false
      end
  end.

(** [os.path.splitext(p)] (posixpath): the extension starts at the last
    dot of the base name, leading dots of the base name not counted. *)
Definition splitext (p : string) : string * string :=
  let filename_index :=
    match rfind "/"%char p with Some i => S i | None => 0 end in
  match rfind "."%char p with
  | Some dot_index =>
      if (filename_index <=? dot_index)
         && has_non_dot p filename_index (dot_index - filename_index)
      then (take_str dot_index p, drop_str dot_index p)
      else (p, EmptyString)
  | None => (p, EmptyString)
  end.

(** *** [float(s)]: which strings are accepted *)

Fixpoint span_digits (s : string) : nat * string :=
  match s with
  | String c s' =>
      if isdecimal c then let '(n, r) := span_digits s' in (S n, r)
      else (0, s)
  | EmptyString => (0, EmptyString)
  end.

Definition skip_sign (s : string) : string :=
  match s with
  | String c s' =>
      if Ascii.eqb c "+"%char || Ascii.eqb c "-"%char then s' else s
  | EmptyString => s
  end.

(** [exponent ::= ("e" | "E") [sign] digit+], up to the end. *)
Definition exponent_ok (s : string) : bool :=
  match s with
  | EmptyString => true
  | String c s' =>
      (Ascii.eqb c "e"%char || Ascii.eqb c "E"%char)
      && (let '(n, r) := span_digits (skip_sign s') in
          (0 <? n) && is_empty r)
  end.

(** [number ::= digit* "." digit* | digit+] with at least one digit,
    followed by an optional exponent. *)
Definition decimal_ok (s : string) : bool :=
  let '(n1, r1) := span_digits s in
  match r1 with
  | String c r2 =>
      if Ascii.eqb c "."%char then
        let '(n2, r3) := span_digits r2 in
        (0 <? n1 + n2) && exponent_ok r3
      else (0 <? n1) && exponent_ok r1
  | EmptyString => 0 <? n1
  end.

Definition ascii_lower_char (c : ascii) : ascii :=
  let n := code c in
  if (65 <=? n) && (n <=? 90) then ascii_of_nat (n + 32) else c.

Fixpoint ascii_lower (s : string) : string :=
  match s with
  | EmptyString => EmptyString
  | String c s' => String (ascii_lower_char c) (ascii_lower s')
  end.

Definition inf_or_nan (s : string) : bool :=
  let t := ascii_lower s in
  String.eqb t "inf" || String.eqb t "infinity" || String.eqb t "nan".

(** Underscores are allowed between two digits only. *)
Fixpoint underscores_ok (prev : option ascii) (s : string) : bool :=
  match s with
  | EmptyString =>
      match prev with
      | Some p => negb (Ascii.eqb p "_"%char)
      | None => true
      end
  | String c s' =>
      (if Ascii.eqb c "_"%char then
         match prev with Some p => isdecimal p | None => false end
       else
         match prev with
         | Some p => negb (Ascii.eqb p "_"%char) || isdecimal c
         | None => true
         end)
      && underscores_ok (Some c) s'
  end.

(** [float(s)] returns (rather than raising [ValueError]). *)
Definition float_accepts (s : string) : bool :=
  let t := strip s in
  underscores_ok None t
  && (let u := skip_sign (remove_char "_"%char t) in
      inf_or_nan u || decimal_ok u).

(** *** [datetime.strptime(s, '%Y-%m-%d')]: which strings are accepted *)

(** One alternative of a regex group: the number read and the rest. *)
Definition alt := string -> option (nat * string).

Definition two_chars (ok1 ok2 : ascii -> bool) : alt := fun s =>
  match s with
  | String a (String b r) =>
      if ok1 a && ok2 b then Some (10 * digit_value a + digit_value b, r)
      else None
  | _ => None
  end.

Definition one_char (ok : ascii -> bool) : alt := fun s =>
  match s with
  | String a r => if ok a then Some (digit_value a, r) else None
  | _ => None
  end.

Definition space_then (ok : ascii -> bool) : alt := fun s =>
  match s with
  | String a (String b r) =>
      if Ascii.eqb a " "%char && ok b then Some (digit_value b, r) else None
  | _ => None
  end.

Definition between (lo hi : nat) (c : ascii) : bool :=
  (lo <=? code c) && (code c <=? hi).
Definition is_char (x : ascii) (c : ascii) : bool := Ascii.eqb c x.

(** [%m] is [1[0-2]|0[1-9]|[1-9]]. *)
Definition month_alts : list alt :=
  [ two_chars (is_char "1") (between 48 50);
    two_chars (is_char "0") (between 49 57);
    one_char (between 49 57) ].

(** [%d] is [3[0-1]|[1-2]\d|0[1-9]|[1-9]| [1-9]]. *)
Definition day_alts : list alt :=
  [ two_chars (is_char "3") (between 48 49);
    two_chars (between 49 50) isdecimal;
    two_chars (is_char "0") (between 49 57);
    one_char (between 49 57);
    space_then (between 49 57) ].

(** Alternation with backtracking: the first alternative after which
    the continuation [k] matches. *)
Fixpoint first_alt {A} (alts : list alt) (s : string)
    (k : nat -> string -> option A) : option A :=
  match alts with
  | [] => None
  | a :: alts' =>
      match (match a s with Some (n, r) => k n r | None => None end) with
      | Some x => Some x
      | None => first_alt alts' s k
      end
  end.

Definition expect (c : ascii) {A} (s : string) (k : string -> option A)
  : option A :=
  match s with
  | String d r => if Ascii.eqb d c then k r else None
  | EmptyString => None
  end.

(** [%Y] is [\d\d\d\d]. *)
Definition year4 : alt := fun s =>
  match s with
  | String a (String b (String c (String d r))) =>
      if isdecimal a && isdecimal b && isdecimal c && isdecimal d
      then Some (1000 * digit_value a + 100 * digit_value b
                 + 10 * digit_value c + digit_value d, r)
      else None
  | _ => None
  end.

(** The match of the compiled format at the start of [s]: the fields
    and the unconverted remainder. *)
Definition match_Ymd (s : string) : option (nat * nat * nat * string) :=
  match year4 s with
  | Some (y, r) =>
      expect "-" r (fun r1 =>
      first_alt month_alts r1 (fun m r2 =>
      expect "-" r2 (fun r3 =>
      first_alt day_alts r3 (fun d r4 => Some (y, m, d, r4)))))
  | None => None
  end.

Definition is_leap (y : nat) : bool :=
  ((y mod 4 =? 0) && negb (y mod 100 =? 0)) || (y mod 400 =? 0).

Definition days_in_month (y m : nat) : nat :=
  match m with
  | 2 => if is_leap y then 29 else 28
  | 4 | 6 | 9 | 11 => 30
  | _ => 31
  end.

(** [datetime.date(y, m, d)] is a date. *)
Definition valid_date (y m d : nat) : bool :=
  (1 <=? y) && (y <=? 9999) && (1 <=? m) && (m <=? 12)
  && (1 <=? d) && (d <=? days_in_month y m).

(** [datetime.strptime(s, '%Y-%m-%d')] returns (rather than raising
    [ValueError]): the format matches, nothing remains unconverted and
    the fields are a date. *)
Definition strptime_Ymd_accepts (s : string) : bool :=
  match match_Ymd s with
  | Some (y, m, d, r) => is_empty r && valid_date y m d
  | None => false
  end.

End Py.

(** ** Exceptions and results *)
Module Exn.

Inductive exn :=
| ConversionError (msg : string)
| HTTPException (status_code : nat) (detail : string)
| KeyError (key : string)
| ValueError (msg : string)
| InvalidIndexError (msg : string).

Global Instance exn_eq_dec : EqDecision exn.
Proof. solve_decision. Defined.

(** [str(e)] for the exceptions the program formats into a message. *)
Definition exn_str (e : exn) : string :=
  match e with
  | ConversionError msg => msg
  | HTTPException code detail => pretty code +:+ ": " +:+ detail
  | KeyError key => "'" +:+ key +:+ "'"
  | ValueError msg => msg
  | InvalidIndexError msg => msg
  end.

(** A call either returns a value or raises. *)
Inductive result (A : Type) :=
| Ok (a : A)
| Raise (e : exn).
Global Arguments Ok {A} a.
Global Arguments Raise {A} e.

Definition bind {A B} (r : result A) (k : A -> result B) : result B :=
  match r with
  | Ok a => k a
  | Raise e => Raise e
  end.

(** The calls of a loop body in order, stopping at the first raise. *)
Fixpoint for_each {A B} (f : A -> result B) (xs : list A)
  : result (list B) :=
  match xs with
  | [] => Ok []
  | x :: xs' =>
      bind (f x) (fun y => bind (for_each f xs') (fun ys => Ok (y :: ys)))
  end.


End Exn.
Export Exn.

(** ** A Python dict, as an association list in insertion order *)
Module Dict.
Section Dict.
Context {K V : Type} `{EqDecision K}.

(** [d.get(k, dflt)] *)
Fixpoint get (k : K) (d : list (K * V)) (dflt : V) : V :=
  match d with
  | [] => dflt
  | (k', v) :: d' => if decide (k' = k) then v else get k d' dflt
  end.

(** [d[k] = v]: the value of an existing key is replaced in place, a
    new key goes to the end. *)
Fixpoint set (k : K) (v : V) (d : list (K * V)) : list (K * V) :=
  match d with
  | [] => [(k, v)]
  | (k', v') :: d' =>
      if decide (k' = k) then (k, v) :: d' else (k', v') :: set k v d'
  end.

End Dict.
End Dict.

(** ** pandas: the frames [main.py] builds and concatenates *)
Module Pandas.

(** A value held in an object column: a Python object of type [A],
    [None], or the missing-value marker [nan]. *)
Inductive obj (A : Type) :=
| Val (a : A)
| PyNone
| NaN.
Global Arguments Val {A} a.
Global Arguments PyNone {A}.
Global Arguments NaN {A}.

Global Instance obj_eq_dec {A} `{EqDecision A} : EqDecision (obj A).
Proof. solve_decision. Defined.

Definition of_option {A} (o : option A) : obj A :=
  match o with Some a => Val a | None => PyNone end.

(** [str(v)] of such a value, given [str] on [A]. *)
Definition obj_str {A} (str : A -> string) (v : obj A) : string :=
  match v with
  | Val a => str a
  | PyNone => "None"
  | NaN => "nan"
  end.

(** A frame: its column labels and its rows of values, each row as
    wide as the labels. *)
Record DataFrame (L A : Type) := {
  columns : list L;
  values : list (list (obj A))
}.
Global Arguments columns {L A} d.
Global Arguments values {L A} d.

Global Instance DataFrame_eq_dec {L A} `{EqDecision L, EqDecision A}
  : EqDecision (DataFrame L A).
Proof. solve_decision. Defined.

Section Frames.
Context {L A : Type} `{EqDecision L}.

(** A short row is filled up with [None]. *)
Definition pad (width : nat) (r : list (obj A)) : list (obj A) :=
  r ++ replicate (width - length r) PyNone.

(** [pd.DataFrame(data, columns=columns)] for a list of row lists: no
    rows give an empty frame with the labels; otherwise the rows are
    filled up to the widest one and that width must be the number of
    labels. *)
Definition from_rows (data : list (list (obj A))) (cols : list L)
  : result (DataFrame L A) :=
  match data with
  | [] => Ok {| columns := cols; values := [] |}
  | _ :: _ =>
      let width := max_list (length <$> data) in
      if width =? length cols
      then Ok {| columns := cols; values := pad width <$> data |}
      else Raise (ValueError (pretty (length cols)
                              +:+ " columns passed, passed data had "
                              +:+ pretty width +:+ " columns"))
  end.

(** [pd.DataFrame(data, columns=columns)] for a list of dicts: each
    label looks itself up in each dict. *)
Definition from_dicts (data : list (list (L * obj A))) (cols : list L)
  : DataFrame L A :=
  {| columns := cols;
     values := (fun d => (fun k => Dict.get k d NaN) <$> cols) <$> data |}.

(** The labels of a list in the order of their first appearance. *)
Fixpoint unique (l : list L) : list L :=
  match l with
  | [] => []
  | x :: l' => x :: filter (fun y => y ≠ x) (unique l')
  end.

Fixpoint has_duplicates (l : list L) : bool :=
  match l with
  | [] => false
  | x :: l' => bool_decide (x ∈ l') || has_duplicates l'
  end.

(** The position of a label among the labels of a frame. *)
Fixpoint index_of (k : L) (l : list L) : option nat :=
  match l with
  | [] => None
  | x :: l' => if decide (x = k) then Some 0 else S <$> index_of k l'
  end.

(** One row of a frame with labels [old] under the labels [new]: by
    label, [nan] where the frame has no such column. *)
Definition reindex_row (old new : list L) (r : list (obj A))
  : list (obj A) :=
  (fun k => match index_of k old with
            | Some i => default NaN (r !! i)
            | None => NaN
            end) <$> new.

(** The rows of a frame under the combined labels: unchanged when the
    frame has exactly these labels, otherwise re-indexed, which pandas
    refuses for a frame with a repeated label. *)
Definition reindex (new : list L) (d : DataFrame L A)
  : result (list (list (obj A))) :=
  if decide (columns d = new) then Ok (values d)
  else if has_duplicates (columns d)
  then Raise (InvalidIndexError
                "Reindexing only valid with uniquely valued Index objects")
  else Ok (reindex_row (columns d) new <$> values d).


(** [pd.concat(frames, ignore_index=True)]: the rows of the frames one
    after the other under the union of their labels (the labels of the
    first frame when all frames agree). *)
Definition concat (frames : list (DataFrame L A))
  : result (DataFrame L A) :=
  match frames with
  | [] => Raise (ValueError "No objects to concatenate")
  | d :: ds =>
      let cols :=
        if forallb (fun d' => bool_decide (columns d' = columns d)) ds
        then columns d
        else unique (mjoin (columns <$> frames)) in
      bind (for_each (reindex cols) frames) (fun rs =>
      Ok {| columns := cols; values := mjoin rs |})
  end.

End Frames.
End Pandas.

(** ** xml.etree.ElementTree: elements and their serialisation *)
Module ET.

(** An element: tag, text (unset is [None]) and children; the program
    sets no attribute and no tail. *)
Inductive Element :=
| Elem (tag : string) (text : option string) (children : list Element).

Definition tag (e : Element) : string := let 'Elem t _ _ := e in t.
Definition text (e : Element) : option string := let 'Elem _ x _ := e in x.
Definition children (e : Element) : list Element :=
  let 'Elem _ _ cs := e in cs.

(** [_escape_cdata] *)
Fixpoint escape_cdata (s : string) : string :=
  match s with
  | EmptyString => EmptyString
  | String c s' =>
      (if Ascii.eqb c "&" then "&amp;"
       else if Ascii.eqb c "<" then "&lt;"
       else if Ascii.eqb c ">" then "&gt;"
       else String c EmptyString) +:+ escape_cdata s'
  end.

(** [_serialize_xml] with [short_empty_elements]: an element without
    text (unset or empty) and without children is written [<tag />].
    Tags are written as they are. *)
Fixpoint serialize (e : Element) : string :=
  let 'Elem t x cs := e in
  let body := default "" (escape_cdata <$> x)
              +:+ fold_right (fun c acc => serialize c +:+ acc) "" cs in
  match default "" x, cs with
  | EmptyString, [] => "<" +:+ t +:+ " />"
  | _, _ => "<" +:+ t +:+ ">" +:+ body +:+ "</" +:+ t +:+ ">"
  end.

Definition xml_declaration : string :=
  "<?xml version='1.0' encoding='utf-8'?>" +:+ String "010" "".

(** The UTF-8 encoding of a code point below 256: one byte below 128,
    two bytes from there on. *)
Definition utf8_char (c : ascii) : string :=
  let n := Py.code c in
  if n <? 128 then String c EmptyString
  else String (ascii_of_nat (192 + n / 64))
         (String (ascii_of_nat (128 + n mod 64)) EmptyString).

Fixpoint utf8_encode (s : string) : string :=
  match s with
  | EmptyString => EmptyString
  | String c s' => utf8_char c +:+ utf8_encode s'
  end.

Fixpoint plain_tags (e : Element) : bool :=
  let 'Elem t _ cs := e in
  negb (Py.startswith "{" t) && forallb plain_tags cs.

(** The bytes [ElementTree(root).write(path, encoding='utf-8',
    xml_declaration=True)] writes; [None] when a tag starts with a
    brace (a qualified name, which this model does not cover). *)
Definition write (root : Element) : option string :=
  if plain_tags root
  then Some (utf8_encode (xml_declaration +:+ serialize root))
  else None.

(** *** Well-formedness (XML 1.0), on code points below 256 *)

Definition name_start_char (c : ascii) : bool :=
  let n := Py.code c in
  (n =? 58) || ((65 <=? n) && (n <=? 90)) || (n =? 95)
  || ((97 <=? n) && (n <=? 122))
  || ((192 <=? n) && (n <=? 214)) || ((216 <=? n) && (n <=? 246))
  || (248 <=? n).

Definition name_char (c : ascii) : bool :=
  let n := Py.code c in
  name_start_char c || (n =? 45) || (n =? 46)
  || ((48 <=? n) && (n <=? 57)) || (n =? 183).

(** The production [Name]. *)
Definition xml_name (s : string) : bool :=
  match s with
  | EmptyString => false
  | String c s' => name_start_char c && Py.all_chars name_char s'
  end.

(** The production [Char]. *)
Definition xml_char (c : ascii) : bool :=
  let n := Py.code c in
  (n =? 9) || (n =? 10) || (n =? 13) || (32 <=? n).

(** The predefined entity references. *)
Definition entity_refs : list string :=
  ["&amp;"; "&lt;"; "&gt;"; "&apos;"; "&quot;"].

(** A character that may stand for itself in character data. *)
Definition char_data (c : ascii) : bool :=
  xml_char c && negb (Ascii.eqb c "<") && negb (Ascii.eqb c "&")
  && negb (Ascii.eqb c ">").

(** The productions [element] and [content] of XML 1.0 for elements
    without attributes: the texts that are an element, and the texts
    that may stand between a start tag and an end tag. *)
Inductive is_element : string -> Prop :=
| empty_element n :
    xml_name n = true -> is_element ("<" +:+ n +:+ " />")
| tagged_element n c :
    xml_name n = true -> is_content c ->
    is_element ("<" +:+ n +:+ ">" +:+ c +:+ "</" +:+ n +:+ ">")
with is_content : string -> Prop :=
| content_end : is_content ""
| content_char c s :
    char_data c = true -> is_content s -> is_content (String c s)
| content_ref r s :
    r ∈ entity_refs -> is_content s -> is_content (r +:+ s)
| content_element e s :
    is_element e -> is_content s -> is_content (e +:+ s).

(** On trees: the serialisation of an element is a well-formed element when
    every tag is a [Name] and every text holds [Char]s only (the
    markup characters of a text are escaped by [escape_cdata]). *)
Fixpoint well_formed (e : Element) : bool :=
  let 'Elem t x cs := e in
  xml_name t && Py.all_chars xml_char (default "" x)
  && forallb well_formed cs.

End ET.

(** ** The validator of [main.py] *)
Module Validate.

(** One entry of [validation_results]: a dict with these five keys. *)
Record Finding := {
  row : nat;
  column : nat;
  type : string;
  severity : string;
  message : string
}.

Global Instance Finding_eq_dec : EqDecision Finding.
Proof. solve_decision. Defined.

Definition mandatory_columns : list nat := [0; 1; 2].
Definition numeric_columns : list nat := [3; 4].
Definition date_column : nat := 2.
Definition ocr_digraphs : list string := ["O0"; "l1"; "S5"].

Definition mandatory_finding (row_idx col_idx : nat) : Finding :=
  {| row := row_idx; column := col_idx; type := "error";
     severity := "critical"; message := "Mandatory field cannot be empty" |}.

Definition numeric_finding (row_idx col_idx : nat) : Finding :=
  {| row := row_idx; column := col_idx; type := "error";
     severity := "critical"; message := "Value must be numeric" |}.

Definition date_finding (row_idx col_idx : nat) : Finding :=
  {| row := row_idx; column := col_idx; type := "error";
     severity := "warning";
     message := "Invalid date format (should be YYYY-MM-DD)" |}.

Definition ocr_finding (row_idx col_idx : nat) : Finding :=
  {| row := row_idx; column := col_idx; type := "warning";
     severity := "info";
     message := "Possible OCR confusion (O/0, l/1, S/5)" |}.

(** [x in xs] on a list of ints. *)
Definition in_list (x : nat) (xs : list nat) : bool := existsb (Nat.eqb x) xs.

(** The four [if] statements of the loop body, each appending to the
    results [acc] or leaving them as they are. *)
Definition check_mandatory (row_idx col_idx : nat) (cell : string)
    (acc : list Finding) : list Finding :=
  if Py.is_empty (Py.strip cell) && in_list col_idx mandatory_columns
  then acc ++ [mandatory_finding row_idx col_idx] else acc.

Definition check_numeric (row_idx col_idx : nat) (cell : string)
    (acc : list Finding) : list Finding :=
  if in_list col_idx numeric_columns then
    if Py.float_accepts (Py.strip (Py.remove_char "," cell)) then acc
    else acc ++ [numeric_finding row_idx col_idx]
  else acc.

Definition check_date (row_idx col_idx : nat) (cell : string)
    (acc : list Finding) : list Finding :=
  if col_idx =? date_column then
    if Py.strptime_Ymd_accepts (Py.strip cell) then acc
    else acc ++ [date_finding row_idx col_idx]
  else acc.

Definition check_ocr (row_idx col_idx : nat) (cell : string)
    (acc : list Finding) : list Finding :=
  if existsb (fun char => Py.contains char cell) ocr_digraphs
  then acc ++ [ocr_finding row_idx col_idx] else acc.

(** The body of the inner loop. *)
Definition visit_cell (row_idx : nat) (acc : list Finding)
    (col_cell : nat * string) : list Finding :=
  let '(col_idx, cell) := col_cell in
  if row_idx =? 0 then acc
  else check_ocr row_idx col_idx cell
         (check_date row_idx col_idx cell
            (check_numeric row_idx col_idx cell
               (check_mandatory row_idx col_idx cell acc))).

(** [enumerate(xs)] *)
Definition enumerate {A} (xs : list A) : list (nat * A) :=
  zip (seq 0 (length xs)) xs.

Definition visit_row (acc : list Finding) (idx_row : nat * list string)
  : list Finding :=
  let '(row_idx, row) := idx_row in
  fold_left (visit_cell row_idx) (enumerate row) acc.

Definition validate_table (data : list (list string)) : list Finding :=
  fold_left visit_row (enumerate data) [].

(** The findings of one cell, in rule order. *)
Definition cell_findings (r c : nat) (cell : string) : list Finding :=
  if r =? 0 then []
  else check_mandatory r c cell [] ++ check_numeric r c cell []
       ++ check_date r c cell [] ++ check_ocr r c cell [].

(** What the mandatory, numeric and date rules find in one cell. *)
Definition rule_findings (r c : nat) (cell : string) : list Finding :=
  check_mandatory r c cell [] ++ check_numeric r c cell []
  ++ check_date r c cell [].

Definition row_findings (r : nat) (row : list string) : list Finding :=
  mjoin ((fun '(c, cell) => cell_findings r c cell) <$> enumerate row).

(** The findings of a result list at one cell. *)
Definition findings_at (r c : nat) (fs : list Finding) : list Finding :=
  filter (fun f => row f = r /\ column f = c) fs.

(** The text of the cell at a position, if the table has one there. *)
Definition cell_at (data : list (list string)) (r c : nat) : option string :=
  match data !! r with
  | Some row => row !! c
  | None => None
  end.

(** The date pattern in the words of the specification: four digits, a
    dash, two digits, a dash, two digits. *)
Definition iso_pattern (s : string) : bool :=
  match s with
  | String y1 (String y2 (String y3 (String y4 (String d1
      (String m1 (String m2 (String d2 (String a1 (String a2
         EmptyString))))))))) =>
      Py.isdecimal y1 && Py.isdecimal y2 && Py.isdecimal y3
      && Py.isdecimal y4 && Ascii.eqb d1 "-" && Py.isdecimal m1
      && Py.isdecimal m2 && Ascii.eqb d2 "-" && Py.isdecimal a1
      && Py.isdecimal a2
  | _ => false
  end.

(** The year, month and day such a text spells. *)
Definition iso_fields (s : string) : nat * nat * nat :=
  match s with
  | String y1 (String y2 (String y3 (String y4 (String _
      (String m1 (String m2 (String _ (String a1 (String a2 _))))))))) =>
      (1000 * Py.digit_value y1 + 100 * Py.digit_value y2
       + 10 * Py.digit_value y3 + Py.digit_value y4,
       10 * Py.digit_value m1 + Py.digit_value m2,
       10 * Py.digit_value a1 + Py.digit_value a2)
  | _ => (0, 0, 0)
  end.

End Validate.

(** ** The table model and the exporters of [main.py] *)
Module Exporter.
Import Pandas.

(** The pydantic models; [Any] is the type of a cell value and
    [PyFloat] the type of a confidence. *)
Record CellMetadata (Any PyFloat : Type) := {
  error : option bool;
  confidence : option PyFloat;
  status : option string;
  originalValue : option Any
}.
Global Arguments error {Any PyFloat} c.
Global Arguments confidence {Any PyFloat} c.
Global Arguments status {Any PyFloat} c.
Global Arguments originalValue {Any PyFloat} c.

Record TableCell (Any PyFloat : Type) := {
  value : Any;
  metadata : CellMetadata Any PyFloat
}.
Global Arguments value {Any PyFloat} t.
Global Arguments metadata {Any PyFloat} t.

Record TableRow (Any PyFloat : Type) := {
  cells : gmap string (TableCell Any PyFloat)
}.
Global Arguments cells {Any PyFloat} t.

Record TableData (Any PyFloat : Type) := {
  headers : list string;
  rows : list (TableRow Any PyFloat)
}.
Global Arguments headers {Any PyFloat} t.
Global Arguments rows {Any PyFloat} t.

Section Exporters.
Context {Any PyFloat : Type}.
(** [str(v)] on a cell value. *)
Variable str : Any -> string.
(** The bytes [df.to_excel(path, index=False)] and
    [df.to_csv(path, index=False)] write for a frame at the time of the
    call (the workbook writer stamps its output with the clock), or the
    exception they raise. *)
Variables to_excel to_csv : DataFrame string Any -> result string.

Local Abbreviation TableCell := (TableCell Any PyFloat).
Local Abbreviation TableRow := (TableRow Any PyFloat).
Local Abbreviation TableData := (TableData Any PyFloat).

(** [row.cells[header]] *)
Definition getitem (row : TableRow) (header : string) : result TableCell :=
  match cells row !! header with
  | Some cell => Ok cell
  | None => Raise (KeyError header)
  end.

(** One round of the dict comprehension below: the dict so far, or the
    exception that ended the comprehension. *)
Definition dict_step (row : TableRow)
    (acc : result (list (string * obj Any))) (header : string)
  : result (list (string * obj Any)) :=
  bind acc (fun d =>
  bind (getitem row header) (fun cell =>
  Ok (Dict.set header (Val (value cell)) d))).

(** [{header: row.cells[header].value for header in data.headers}] *)
Definition row_dict (hs : list string) (row : TableRow)
  : result (list (string * obj Any)) :=
  fold_left (dict_step row) hs (Ok []).

(** The frame both tabular exporters build: [rows_data] filled by the
    loop over [data.rows], then [pd.DataFrame(rows_data,
    columns=data.headers)]. *)
Definition to_frame (data : TableData) : result (DataFrame string Any) :=
  bind (for_each (row_dict (headers data)) (rows data)) (fun rows_data =>
  Ok (from_dicts rows_data (headers data))).

(** The content written to [filepath]. *)
Definition save_as_xlsx (data : TableData) : result string :=
  bind (to_frame data) to_excel.

Definition save_as_csv (data : TableData) : result string :=
  bind (to_frame data) to_csv.

(** [ET.SubElement(tallymessage, str(header)).text =
     str(row.cells[header].value)] *)
Definition leaf (row : TableRow) (header : string) : result ET.Element :=
  bind (getitem row header) (fun cell =>
  Ok (ET.Elem header (Some (str (value cell))) [])).

(** One [TALLYMESSAGE] with its leaves, in header order. *)
Definition tallymessage (hs : list string) (row : TableRow)
  : result ET.Element :=
  bind (for_each (leaf row) hs) (fun leaves =>
  Ok (ET.Elem "TALLYMESSAGE" None leaves)).

(** The fixed part of the document around the row records. *)
Definition envelope (messages : list ET.Element) : ET.Element :=
  ET.Elem "ENVELOPE" None
    [ ET.Elem "HEADER" None
        [ ET.Elem "VERSION" (Some "1") [];
          ET.Elem "TALLYREQUEST" (Some "Import Data") [] ];
      ET.Elem "BODY" None
        [ ET.Elem "IMPORTDATA" None
            [ ET.Elem "REQUESTDESC" None
                [ ET.Elem "REPORTNAME" (Some "Custom") [] ];
              ET.Elem "REQUESTDATA" None messages ] ] ].

(** The tree [save_as_xml] hands to [tree.write]. *)
Definition save_as_xml_root (data : TableData) : result ET.Element :=
  bind (for_each (tallymessage (headers data)) (rows data)) (fun ms =>
  Ok (envelope ms)).

(** The content written to [filepath] ([ET.write] says when it is
    [None]). *)
Definition save_as_xml (data : TableData) : result (option string) :=
  bind (save_as_xml_root data) (fun root => Ok (ET.write root)).

(** The leaves of a row record: one per header, in header order, each
    named after its header and holding the text of the cell's value. *)
Definition leaves_of (row : TableRow) (hs : list string)
    (leaves : list ET.Element) : Prop :=
  Forall2 (fun h l => exists cell,
             cells row !! h = Some cell
             /\ l = ET.Elem h (Some (str (value cell))) []) hs leaves.

(** The row records of a table: one per row, in row order. *)
Definition records_of (data : TableData) (ms : list ET.Element) : Prop :=
  Forall2 (fun row m => exists leaves,
             m = ET.Elem "TALLYMESSAGE" None leaves
             /\ leaves_of row (headers data) leaves) (rows data) ms.

(** The [REQUESTDATA] block of a document built by [envelope]. *)
Definition request_data (root : ET.Element) : list ET.Element :=
  match root with
  | ET.Elem _ _ [_; ET.Elem _ _ [ET.Elem _ _ [_; ET.Elem _ _ ms]]] => ms
  | _ => []
  end.

(** Every header is a [Name]. *)
Definition headers_are_names (data : TableData) : Prop :=
  Forall (fun h => ET.xml_name h = true) (headers data).

(** The text of the cell under a header holds [Char]s only. *)
Definition text_is_chars (row : TableRow) (h : string) : bool :=
  match cells row !! h with
  | Some cell => Py.all_chars ET.xml_char (str (value cell))
  | None => true
  end.

Definition texts_are_chars (data : TableData) : Prop :=
  Forall (fun row => Forall (fun h => text_is_chars row h = true)
                       (headers data)) (rows data).

(** A table without its metadata: for each row, the value under each
    key. *)
Definition cell_values (data : TableData)
  : list string * list (gmap string Any) :=
  (headers data, (fun row => value <$> cells row) <$> rows data).

(** Every row carries a cell for every declared header. *)
Definition complete (data : TableData) : Prop :=
  Forall (fun row => Forall (fun h => is_Some (cells row !! h))
                       (headers data)) (rows data).

End Exporters.
End Exporter.

(** ** The conversion of [main.py]: extraction, merge, export *)
Module Convert.
Import Pandas.

(** A table as [page.extract_tables()] gives it: rows of cells, a cell
    a string or [None]. *)
Abbreviation RawTable := (list (list (option string))).

(** A frame of the conversion: labels and values come from cells. *)
Abbreviation Frame := (DataFrame (obj string) string).

(** What [cv2.imread], [cv2.cvtColor] and
    [pytesseract.image_to_string] make of a file. *)
Inductive image_outcome :=
| ImreadNone
| OcrRaises (e : exn)
| OcrText (text : string).

(** The files as the extraction libraries see them: for a path, the
    tables of each page of the PDF in page order (or the exception
    pdfplumber raises), and the outcome of reading the image. *)
Record World := {
  pdf_tables : string -> result (list (list RawTable));
  image_text : string -> image_outcome
}.

Definition UPLOAD_DIR : string := "uploads".
Definition CONVERTED_DIR : string := "converted".

(** [os.path.join(a, b)] for a directory name [a] without a trailing
    separator. *)
Definition path_join (a b : string) : string :=
  if Py.startswith "/" b then b else a +:+ "/" +:+ b.

(** [os.path.basename(p)] *)
Definition basename (p : string) : string :=
  match Py.rfind "/" p with
  | Some i => Py.drop_str (S i) p
  | None => p
  end.

(** [except Exception as e: raise ConversionError(prefix + str(e))] *)
Definition reraise {A} (prefix : string) (r : result A) : result A :=
  match r with
  | Ok a => Ok a
  | Raise e => Raise (ConversionError (prefix +:+ exn_str e))
  end.

(** [pd.DataFrame(table[1:], columns=table[0])] for a table that is
    not empty. *)
Definition table_frame (table : RawTable) : result Frame :=
  match table with
  | [] => Raise (ValueError "empty table")
  | header :: body =>
      from_rows ((fun r : list (option string) => of_option <$> r) <$> body)
        (of_option <$> header)
  end.

(** The labels a table gives its frame, and the rows under them. *)
Definition labels (table : RawTable) : list (obj string) :=
  of_option <$> default [] (head table).

Definition cells_of (table : RawTable) : list (list (obj string)) :=
  (fun r : list (option string) =>
     pad (length (labels table)) (of_option <$> r))
  <$> tail table.

(** No row of the table is wider than its first row, and one is as
    wide, unless there is only the first row: what the frame
    constructor asks of a table. *)
Definition fits (table : RawTable) : Prop :=
  tail table = []
  \/ max_list (length <$> tail table) = length (default [] (head table)).

(** The frame of a table that fits. *)
Definition frame_of (table : RawTable) : Frame :=
  {| columns := labels table; values := cells_of table |}.

(** The tables of one page, empty ones skipped by [if table:]. *)
Definition page_frames (page_tables : list RawTable)
  : result (list Frame) :=
  for_each table_frame
    (filter (fun table : RawTable => table ≠ []) page_tables).

Definition extract_tables_from_pdf (w : World) (file_path : string)
  : result (list Frame) :=
  reraise "Failed to extract tables from PDF: "
    (bind (pdf_tables w file_path) (fun pages =>
     bind (for_each page_frames pages) (fun per_page =>
     Ok (mjoin per_page)))).

Definition process_image_ocr (w : World) (file_path : string)
  : result Frame :=
  reraise "Failed to process image: "
    match image_text w file_path with
    | ImreadNone => Raise (ConversionError "Failed to read image file")
    | OcrRaises e => Raise e
    | OcrText text =>
        let lines := Py.split_char "010" (Py.strip text) in
        match lines with
        | [] => Raise (ConversionError "No text detected in image")
        | first_line :: more_lines =>
            let headers := Py.split_ws first_line in
            let data := Py.split_ws <$> more_lines in
            from_rows ((fun r : list string => Val <$> r) <$> data)
              (Val <$> headers)
        end
    end.

(** The rows of a frame as [data.iterrows()] yields them, each with
    its [items()]: the label and value pairs in column order. *)
Definition iterrows (data : Frame) : list (list (obj string * obj string)) :=
  (fun r => zip (columns data) r) <$> values data.

Definition cell_str (v : obj string) : string := obj_str id v.

(** The tree [create_tally_xml] hands to [tree.write]. *)
Definition create_tally_xml_root (data : Frame) : ET.Element :=
  Exporter.envelope
    ((fun items =>
        ET.Elem "TALLYMESSAGE" None
          ((fun '(col, value) =>
              ET.Elem (cell_str col) (Some (cell_str value)) []) <$> items))
     <$> iterrows data).

(** What the conversion does to the outside, in order. *)
Inductive event :=
| ExtractTables (file_path : string)
| OcrImage (file_path : string)
| ToExcel (data : Frame) (output_path : string)
| ToCsv (data : Frame) (output_path : string)
| WriteXml (root : ET.Element) (xml_path : string)
| SaveUpload (filename : string).

(** A computation: the events so far and how it ended. *)
Definition M (A : Type) : Type := list event * result A.

Definition ret {A} (a : A) : M A := ([], Ok a).
Definition raise {A} (e : exn) : M A := ([], Raise e).
Definition tell (ev : event) : M unit := ([ev], Ok tt).
Definition lift {A} (r : result A) : M A := ([], r).
Definition M_bind {A B} (k : A -> M B) (m : M A) : M B :=
  match m with
  | (tr, Ok a) => let '(tr', r) := k a in (tr ++ tr', r)
  | (tr, Raise e) => (tr, Raise e)
  end.

Global Instance M_mbind : MBind M := @M_bind.
Global Instance M_mret : MRet M := @ret.

(** [create_tally_xml(data, filename)]: writes the document, returns
    its path. *)
Definition create_tally_xml (data : Frame) (filename : string) : M string :=
  let xml_path := path_join CONVERTED_DIR (filename +:+ ".xml") in
  tell (WriteXml (create_tally_xml_root data) xml_path);;
  ret xml_path.

(** One round of the loop over [output_formats]; [output_files] is the
    dict filled so far. A format that is none of the three falls
    through the [if]/[elif] chain. *)
Definition export_format (data : Frame) (file_id : string)
    (output_files : list (string * string)) (format : string)
  : M (list (string * string)) :=
  let output_path := path_join CONVERTED_DIR (file_id +:+ "." +:+ format) in
  if decide (format = "xlsx") then
    tell (ToExcel data output_path);;
    ret (Dict.set "xlsx" output_path output_files)
  else if decide (format = "csv") then
    tell (ToCsv data output_path);;
    ret (Dict.set "csv" output_path output_files)
  else if decide (format = "xml") then
    xml_path ← create_tally_xml data file_id;
    ret (Dict.set "xml" xml_path output_files)
  else ret output_files.

Fixpoint export_formats (data : Frame) (file_id : string)
    (output_files : list (string * string)) (formats : list string)
  : M (list (string * string)) :=
  match formats with
  | [] => ret output_files
  | format :: formats' =>
      output_files' ← export_format data file_id output_files format;
      export_formats data file_id output_files' formats'
  end.

(** [str(row[col])]: the text of the value when the label occurs once
    in the frame; with a repeated label [row[col]] is a Series, whose
    printed form is not modelled. *)
Inductive shown :=
| Text (s : string)
| SeriesOf (vs : list (obj string)).

Definition row_getitem (items : list (obj string * obj string))
    (col : obj string) : shown :=
  match snd <$> filter (fun kv => fst kv = col) items with
  | [v] => Text (cell_str v)
  | vs => SeriesOf vs
  end.

(** The [row_dict] of one row, filled in header order. *)
Definition front_row (hs : list (obj string))
    (items : list (obj string * obj string))
  : list (obj string * shown) :=
  fold_left (fun d col => Dict.set col (row_getitem items col) d) hs [].

(** The dict [convert_file] returns. *)
Record Response := {
  status : string;
  message : string;
  file_id : string;
  headers : list (obj string);
  rows : list (list (obj string * shown));
  converted_files : list (string * string)
}.

Definition image_extensions : list string := [".png"; ".jpg"; ".jpeg"].
Definition default_formats : list string := ["xlsx"; "csv"; "xml"].

(** The extension [convert_file] and [upload_file] look at. *)
Definition extension_of (file_path : string) : string :=
  Py.lower (snd (Py.splitext file_path)).

Definition supported_extension (file_path : string) : Prop :=
  extension_of file_path ∈ ".pdf" :: image_extensions.

(** The first [if] of [convert_file]: the frame for the file. *)
Definition extract (w : World) (file_path : string) : M Frame :=
  let file_extension := extension_of file_path in
  if decide (file_extension = ".pdf") then
    tell (ExtractTables file_path);;
    dataframes ← lift (extract_tables_from_pdf w file_path);
    match dataframes with
    | [] => raise (ConversionError "No tables found in PDF")
    | _ :: _ => lift (concat dataframes)
    end
  else if bool_decide (file_extension ∈ image_extensions) then
    tell (OcrImage file_path);;
    lift (process_image_ocr w file_path)
  else raise (HTTPException 400 "Unsupported file format").

Definition convert_file (w : World) (file_path file_id : string)
    (output_formats : list string) : M Response :=
  data ← extract w file_path;
  output_files ← export_formats data file_id [] output_formats;
  let headers := columns data in
  ret {| status := "success";
         message := "File converted successfully";
         file_id := file_id;
         headers := headers;
         rows := front_row headers <$> iterrows data;
         converted_files :=
           (fun '(format, path) =>
              (format, "/download/" +:+ basename path)) <$> output_files |}.

(** [upload_file]: the checks before the file is saved; [content] is
    what the upload holds and [saved] how [save_upload_file] ends, with
    the file id. *)
Definition upload_file (content filename : string) (saved : result string)
  : M string :=
  if Py.is_empty content
  then raise (HTTPException 400 "Empty file")
  else
    let file_extension := extension_of filename in
    if bool_decide (file_extension ∈ ".pdf" :: image_extensions)
    then
      tell (SaveUpload filename);;
      match saved with
      | Ok file_id => ret file_id
      | Raise e => raise (HTTPException 500 (exn_str e))
      end
    else raise (HTTPException 400 "Unsupported file format").

(** *** The merge in the words of the specification *)



End Convert.

(** ** Sample tables and files *)
Module Samples.
Import Pandas Exporter Convert.

(** Cell values as text, confidences as percentages. *)
Definition cell_of (v : string) : TableCell string nat :=
  {| value := v;
     metadata := {| error := None; confidence := None;
                    Exporter.status := None; originalValue := None |} |}.

Definition reviewed (v old : string) : TableCell string nat :=
  {| value := v;
     metadata := {| error := Some true; confidence := Some 40;
                    Exporter.status := Some "warning";
                    originalValue := Some old |} |}.

(** Two columns, three rows. *)
Definition ledger : TableData string nat :=
  {| Exporter.headers := ["Date"; "Amount"];
     Exporter.rows := [ {| cells := {[ "Date" := cell_of "2024-01-15";
                              "Amount" := cell_of "1,234.5" ]} |};
               {| cells := {[ "Date" := cell_of "2024-01-16";
                              "Amount" := cell_of "20" ]} |};
               {| cells := {[ "Date" := cell_of "2024-01-17";
                              "Amount" := cell_of "A&B" ]} |} ] |}.

(** The same values with other metadata. *)
Definition ledger_reviewed : TableData string nat :=
  {| Exporter.headers := ["Date"; "Amount"];
     Exporter.rows := [ {| cells := {[ "Date" := reviewed "2024-01-15" "2O24-01-15";
                              "Amount" := cell_of "1,234.5" ]} |};
               {| cells := {[ "Date" := cell_of "2024-01-16";
                              "Amount" := reviewed "20" "2O" ]} |};
               {| cells := {[ "Date" := cell_of "2024-01-17";
                              "Amount" := reviewed "A&B" "" ]} |} ] |}.

(** The second row has no cell under [Amount]. *)
Definition ledger_with_gap : TableData string nat :=
  {| Exporter.headers := ["Date"; "Amount"];
     Exporter.rows := [ {| cells := {[ "Date" := cell_of "2024-01-15";
                              "Amount" := cell_of "1,234.5" ]} |};
               {| cells := {[ "Date" := cell_of "2024-01-16" ]} |} ] |}.

(** A header with a space in it. *)
Definition invoices : TableData string nat :=
  {| Exporter.headers := ["Invoice No"];
     Exporter.rows := [ {| cells := {[ "Invoice No" := cell_of "7" ]} |} ] |}.

(** A stand-in for the pandas writers in examples: labels and values
    joined by commas, one line per row, nothing quoted. *)
Definition join_with (sep : string) (parts : list string) : string :=
  match parts with
  | [] => ""
  | p :: ps => fold_left (fun acc q => acc +:+ sep +:+ q) ps p
  end.

Definition plain_lines (df : DataFrame string string) : result string :=
  Ok (join_with (String "010" "")
        (join_with "," (columns df)
         :: ((fun r => join_with "," (obj_str id <$> r)) <$> values df))).

(** Two tables on two pages whose header rows name the same columns in
    another order. *)
Definition swapped_pages : list (list RawTable) :=
  [ [ [ [Some "a"; Some "b"]; [Some "1"; Some "2"] ] ];
    [ [ [Some "b"; Some "a"]; [Some "3"; Some "4"] ] ] ].

(** A PDF with these pages, and an image in which OCR finds no text. *)
Definition sample_world : World :=
  {| pdf_tables := fun _ => Ok swapped_pages;
     image_text := fun _ => OcrText "" |}.

End Samples.
(** ** Findings as a report: moving and ordering them *)
Module Report.
Import Validate.

(** A finding with its row index moved down by [n]. *)
Definition shift_row (n : nat) (f : Finding) : Finding :=
  {| row := row f + n; column := column f; type := type f;
     severity := severity f; message := message f |}.

(** Row-major order of the cells two findings point at. *)
Definition row_major (f g : Finding) : Prop :=
  row f < row g \/ (row f = row g /\ column f <= column g).

End Report.

(** ** Tables as the exporters see them *)
Module Views.
Import Pandas Exporter.

Section Views.
Context {Any PyFloat : Type}.

(** What a row holds under a header, as a frame value. *)
Definition cell_value (row : TableRow Any PyFloat) (h : string) : obj Any :=
  match cells row !! h with
  | Some cell => Val (value cell)
  | None => NaN
  end.

(** The table as a frame: the headers as labels and, row by row, the
    value under each header. *)
Definition frame_view (data : TableData Any PyFloat) : DataFrame string Any :=
  {| columns := headers data;
     values := (fun row => cell_value row <$> headers data) <$> rows data |}.

(** Two tables with the same headers whose rows hold the same values
    under these headers, whatever else the rows hold. *)
Definition agree_on_headers (data1 data2 : TableData Any PyFloat) : Prop :=
  headers data1 = headers data2
  /\ Forall2 (fun row1 row2 =>
                Forall (fun h => value <$> cells row1 !! h
                                 = value <$> cells row2 !! h)
                  (headers data1))
       (rows data1) (rows data2).

End Views.
End Views.

(** ** The conversion in parts: OCR lines, export paths, frame shapes *)
Module Lines.
Import Pandas Convert.

(** The lines [process_image_ocr] makes of the OCR text: the words of
    the first line and the words of each line after it. *)
Definition ocr_lines (text : string) : list string :=
  Py.split_char "010" (Py.strip text).

Definition ocr_headers (text : string) : list string :=
  Py.split_ws (default "" (head (ocr_lines text))).

Definition ocr_data (text : string) : list (list string) :=
  Py.split_ws <$> tail (ocr_lines text).


(** There is no line after the first, or the line with the most words
    has as many as the first. *)
Definition ocr_fits (text : string) : Prop :=
  ocr_data text = []
  \/ max_list (length <$> ocr_data text) = length (ocr_headers text).

Global Instance ocr_fits_dec text : Decision (ocr_fits text).
Proof. unfold ocr_fits. apply _. Defined.

(** The supported formats among the requested ones. *)
Definition supported_formats (formats : list string) : list string :=
  filter (fun format => format ∈ default_formats) formats.

(** Where the loop of [convert_file] writes the export of a format. *)
Definition output_path (file_id format : string) : string :=
  path_join CONVERTED_DIR (file_id +:+ "." +:+ format).

(** What one round of the loop does for a supported format. *)
Definition write_event (data : Frame) (file_id format : string) : event :=
  if decide (format = "xlsx") then ToExcel data (output_path file_id format)
  else if decide (format = "csv")
  then ToCsv data (output_path file_id format)
  else WriteXml (create_tally_xml_root data) (output_path file_id format).

(** The entry of [converted_files] for a format. *)
Definition download_link (file_id format : string) : string * string :=
  (format, "/download/" +:+ basename (output_path file_id format)).

(** The path an event writes to, if it writes an export. *)
Definition written_path (ev : event) : option string :=
  match ev with
  | ToExcel _ path | ToCsv _ path | WriteXml _ path => Some path
  | ExtractTables _ | OcrImage _ | SaveUpload _ => None
  end.

(** The [file_path] that [download_file] looks for and serves. *)
Definition download_path (filename : string) : string :=
  path_join CONVERTED_DIR filename.

(** [d[k] = v] on the keys of a dict. *)
Definition add_key (ks : list string) (k : string) : list string :=
  if decide (k ∈ ks) then ks else ks ++ [k].

(** Every row of the frame is as wide as its labels. *)
Definition rectangular (d : Frame) : Prop :=
  Forall (fun r => length r = length (columns d)) (values d).

End Lines.

(** ** The endpoints and the files on disk *)
Module Endpoints.
Import Exn Pandas Convert Lines.

(** The files on disk, by path. Paths are compared as strings, as on a
    file system that tells upper case from lower case. *)
Abbreviation Files := (gset string).

(** What an endpoint does to the files, in order: an effect of
    [convert_file], the upload written to a path, [os.remove]. *)
Inductive action :=
| Run (ev : event)
| Save (file_path : string)
| Remove (file_path : string).

Definition apply_action (files : Files) (a : action) : Files :=
  match a with
  | Run ev =>
      match written_path ev with
      | Some path => files ∪ {[ path ]}
      | None => files
      end
  | Save path => files ∪ {[ path ]}
  | Remove path => files ∖ {[ path ]}
  end.

Definition files_after (files : Files) (acts : list action) : Files :=
  fold_left apply_action acts files.

(** The body of a [JSONResponse]: the dict of [convert_file], or
    [{"status": "error", "message": message}]. *)
Inductive Body :=
| Converted (result : Response)
| Failure (message : string).

Record JSONResponse := {
  status_code : nat;
  content : Body
}.

(** The two [except] clauses of the convert endpoints. *)
Definition on_error (e : exn) : JSONResponse :=
  match e with
  | ConversionError msg => {| status_code := 400; content := Failure msg |}
  | _ => {| status_code := 500;
            content := Failure ("Internal server error: " +:+ exn_str e) |}
  end.

(** How writing the upload ends: all chunks written; [aiofiles.open]
    raises; a later read or write raises. The text is [str(e)]. *)
Inductive write_outcome :=
| Written
| OpenFails (detail : string)
| WriteFails (detail : string).

(** The path [save_upload_file] writes to: the extension is the one of
    the uploaded name, as it is. *)
Definition upload_path (file_id filename : string) : string :=
  path_join UPLOAD_DIR (file_id +:+ snd (Py.splitext filename)).

(** [save_upload_file]; [file_id] is the fresh [uuid4]. *)
Definition save_upload_file (files : Files) (file_id filename : string)
    (outcome : write_outcome) : list action * result (string * string) :=
  let file_path := upload_path file_id filename in
  match outcome with
  | Written => ([Save file_path], Ok (file_path, file_id))
  | OpenFails detail =>
      (if decide (file_path ∈ files) then [Remove file_path] else [],
       Raise (HTTPException 500 detail))
  | WriteFails detail =>
      ([Save file_path; Remove file_path], Raise (HTTPException 500 detail))
  end.

(** [POST /convert] *)
Definition convert_new_file (w : World) (files : Files)
    (file_id filename : string) (outcome : write_outcome)
    (output_formats : list string) : list action * JSONResponse :=
  match save_upload_file files file_id filename outcome with
  | (acts, Raise e) => (acts, on_error e)
  | (acts, Ok (file_path, file_id)) =>
      match convert_file w file_path file_id output_formats with
      | (tr, Ok result) =>
          (acts ++ (Run <$> tr) ++ [Remove file_path],
           {| status_code := 200; content := Converted result |})
      | (tr, Raise e) => (acts ++ (Run <$> tr), on_error e)
      end
  end.

(** The extensions [convert_uploaded_file] tries, in its order. *)
Definition upload_extensions : list string := [".pdf"; ".png"; ".jpg"; ".jpeg"].

Definition candidates (file_id : string) : list string :=
  (fun ext => path_join UPLOAD_DIR (file_id +:+ ext)) <$> upload_extensions.

(** [POST /convert/{file_id}] *)
Definition convert_uploaded_file (w : World) (files : Files)
    (file_id : string) (output_formats : list string)
  : list action * JSONResponse :=
  match filter (fun file_path => file_path ∈ files) (candidates file_id) with
  | file_path :: _ =>
      match convert_file w file_path file_id output_formats with
      | (tr, Ok result) =>
          ((Run <$> tr) ++ [Remove file_path],
           {| status_code := 200; content := Converted result |})
      | (tr, Raise e) => (Run <$> tr, on_error e)
      end
  | [] => ([], on_error (HTTPException 404 "File not found"))
  end.

(** [GET /download/{filename}]: the path served. *)
Definition download_file (files : Files) (filename : string)
  : result string :=
  let file_path := download_path filename in
  if decide (file_path ∈ files) then Ok file_path
  else Raise (HTTPException 404 "File not found").

End Endpoints.

(** ** Saving edits and downloading them *)
Module Edits.
Import Exn Pandas Exporter.

Section SaveEdits.
Context {Any PyFloat : Type}.
(** [str(v)] on a cell value, and the two pandas writers, as for the
    exporters. *)
Variable str : Any -> string.
Variables to_excel to_csv : DataFrame string Any -> result string.

(** [os.path.join(corrected_dir, f"{payload.fileId}_corrected")] *)
Definition base_path (fileId : string) : string :=
  Convert.path_join "corrected" (fileId +:+ "_corrected").

(** The [downloads] of the answer. *)
Definition downloads (fileId : string) : list (string * string) :=
  [ ("xlsx", "/api/download/" +:+ fileId +:+ "/xlsx");
    ("csv", "/api/download/" +:+ fileId +:+ "/csv");
    ("xml", "/api/download/" +:+ fileId +:+ "/xml") ].

(** [POST /api/save-edits]: the files written, each with its path and
    content, in order, and the answer: the [downloads], or the
    [HTTPException] the [except] clause raises. [logged] is how
    [log_changes] ends. *)
Definition save_edits (fileId : string)
    (modifiedData : TableData Any PyFloat) (logged : result unit)
  : list (string * option string) * result (list (string * string)) :=
  let base_path := base_path fileId in
  match save_as_xlsx to_excel modifiedData with
  | Raise e => ([], Raise (HTTPException 500 (exn_str e)))
  | Ok xlsx =>
      let written1 := [(base_path +:+ ".xlsx", Some xlsx)] in
      match save_as_csv to_csv modifiedData with
      | Raise e => (written1, Raise (HTTPException 500 (exn_str e)))
      | Ok csv =>
          let written2 := written1 ++ [(base_path +:+ ".csv", Some csv)] in
          match save_as_xml str modifiedData with
          | Raise e => (written2, Raise (HTTPException 500 (exn_str e)))
          | Ok xml =>
              let written3 := written2 ++ [(base_path +:+ ".xml", xml)] in
              match logged with
              | Raise e => (written3, Raise (HTTPException 500 (exn_str e)))
              | Ok _ => (written3, Ok (downloads fileId))
              end
          end
      end
  end.

End SaveEdits.

(** [GET /api/download/{file_id}/{format}]: the path served. *)
Definition download_file (files : gset string) (file_id format : string)
  : result string :=
  if bool_decide (format ∈ ["xlsx"; "csv"; "xml"])
  then
    let file_path := "corrected/" +:+ file_id +:+ "_corrected." +:+ format in
    if decide (file_path ∈ files) then Ok file_path
    else Raise (HTTPException 404 "File not found")
  else Raise (HTTPException 400 "Invalid format").

End Edits.

(** * Theorems *)

(** ** The validator *)
Module ValidateFacts.
Import Validate.

Local Arguments visit_cell : simpl never.
Local Arguments visit_row : simpl never.

(** A step that only appends can be run from the empty list. *)
Lemma check_mandatory_app r c cell acc :
  check_mandatory r c cell acc = acc ++ check_mandatory r c cell [].
Proof. unfold check_mandatory. case_match; by rewrite ?app_nil_r. Qed.

Lemma check_numeric_app r c cell acc :
  check_numeric r c cell acc = acc ++ check_numeric r c cell [].
Proof. unfold check_numeric. repeat case_match; by rewrite ?app_nil_r. Qed.

Lemma check_date_app r c cell acc :
  check_date r c cell acc = acc ++ check_date r c cell [].
Proof. unfold check_date. repeat case_match; by rewrite ?app_nil_r. Qed.

Lemma check_ocr_app r c cell acc :
  check_ocr r c cell acc = acc ++ check_ocr r c cell [].
Proof. unfold check_ocr. case_match; by rewrite ?app_nil_r. Qed.

Lemma visit_cell_app r acc c cell :
  visit_cell r acc (c, cell) = acc ++ cell_findings r c cell.
Proof.
  unfold visit_cell, cell_findings. destruct (r =? 0).
  - by rewrite app_nil_r.
  - rewrite check_ocr_app, check_date_app, check_numeric_app,
      check_mandatory_app. by rewrite <- !app_assoc.
Qed.

Lemma fold_visit_cell r cells acc :
  fold_left (visit_cell r) cells acc
  = acc ++ mjoin ((fun '(c, cell) => cell_findings r c cell) <$> cells).
Proof.
  revert acc. induction cells as [|[c cell] cells IH]; intros acc; simpl.
  - by rewrite app_nil_r.
  - rewrite IH, visit_cell_app. by rewrite <- app_assoc.
Qed.

Lemma fold_visit_row rows acc :
  fold_left visit_row rows acc
  = acc ++ mjoin ((fun '(r, row) => row_findings r row) <$> rows).
Proof.
  revert acc. induction rows as [|[r row] rows IH]; intros acc; simpl.
  - by rewrite app_nil_r.
  - rewrite IH. unfold visit_row. rewrite fold_visit_cell.
    by rewrite <- app_assoc.
Qed.

(** The loops as a comprehension: row-major, rule order within a cell. *)
Lemma validate_table_unfold data :
  validate_table data
  = mjoin ((fun '(r, row) => row_findings r row) <$> enumerate data).
Proof. unfold validate_table. by rewrite fold_visit_row. Qed.

Lemma filter_all {A} (P : A -> Prop) `{!forall x, Decision (P x)} l :
  Forall P l -> filter P l = l.
Proof.
  induction 1 as [|x l Hx _ IH]; [done|].
  rewrite filter_cons_True by done. by rewrite IH.
Qed.

Lemma filter_none {A} (P : A -> Prop) `{!forall x, Decision (P x)} l :
  Forall (fun x => ~ P x) l -> filter P l = [].
Proof.
  induction 1 as [|x l Hx _ IH]; [done|].
  by rewrite filter_cons_False.
Qed.

Section Indexed.
Context {A B : Type} (key : B -> nat) (g : nat -> A -> list B).
Hypothesis key_g : forall i x b, b ∈ g i x -> key b = i.

Lemma filter_key_hit k x : filter (fun b => key b = k) (g k x) = g k x.
Proof.
  apply filter_all, Forall_forall. intros b Hb. by apply key_g in Hb.
Qed.

Lemma filter_key_miss k i x : i ≠ k -> filter (fun b => key b = k) (g i x) = [].
Proof.
  intros Hne. apply filter_none, Forall_forall.
  intros b Hb. apply key_g in Hb. congruence.
Qed.

(** Selecting by index from the results of an enumerated loop gives the
    results of the round with that index. *)
Lemma filter_enumerate_from k n (l : list A) :
  filter (fun b => key b = k)
    (mjoin ((fun '(i, x) => g i x) <$> zip (seq n (length l)) l))
  = if decide (n <= k) then from_option (g k) [] (l !! (k - n)) else [].
Proof.
  revert n. induction l as [|x l IH]; intros n; simpl.
  - by case_decide.
  - rewrite filter_app, IH. destruct (decide (n = k)) as [->|Hne].
    + rewrite filter_key_hit. repeat case_decide; try lia.
      rewrite Nat.sub_diag. simpl. by rewrite app_nil_r.
    + rewrite filter_key_miss by done. simpl.
      repeat case_decide; try lia; [|done].
      by replace (k - n) with (S (k - S n)) by lia.
Qed.

Lemma filter_enumerate k (l : list A) :
  filter (fun b => key b = k) (mjoin ((fun '(i, x) => g i x) <$> enumerate l))
  = from_option (g k) [] (l !! k).
Proof.
  unfold enumerate. rewrite filter_enumerate_from.
  rewrite decide_True by lia. by rewrite Nat.sub_0_r.
Qed.

End Indexed.

Lemma cell_findings_position r c cell f :
  f ∈ cell_findings r c cell -> row f = r /\ column f = c.
Proof.
  unfold cell_findings, check_mandatory, check_numeric, check_date, check_ocr.
  repeat case_match; rewrite ?app_nil_l, ?app_nil_r; intros Hf;
    repeat (apply elem_of_app in Hf as [Hf|Hf] || apply elem_of_cons in Hf as [->|Hf]
            || apply elem_of_nil in Hf as []); done.
Qed.

Lemma row_findings_row r cells f : f ∈ row_findings r cells -> row f = r.
Proof.
  unfold row_findings. intros Hf. apply list_elem_of_join in Hf as (l & Hf & Hl).
  apply list_elem_of_fmap in Hl as ([c cell] & -> & _).
  by apply cell_findings_position in Hf as [? _].
Qed.

(** The findings at a position are the findings of the cell there. *)
Lemma findings_at_validate data r c :
  findings_at r c (validate_table data)
  = from_option (cell_findings r c) [] (cell_at data r c).
Proof.
  unfold findings_at, cell_at.
  rewrite (list_filter_iff _ (fun f => column f = c /\ row f = r))
    by (intros; tauto).
  rewrite <- (list_filter_filter (fun f => column f = c) (fun f => row f = r)).
  rewrite validate_table_unfold.
  rewrite (filter_enumerate row row_findings) by apply row_findings_row.
  destruct (data !! r) as [cells|]; simpl; [|done].
  unfold row_findings.
  rewrite (filter_enumerate column (cell_findings r)); [done|].
  intros i x b Hb. by apply cell_findings_position in Hb as [_ ?].
Qed.

Lemma cell_findings_nonheader r c cell :
  r ≠ 0 ->
  cell_findings r c cell = rule_findings r c cell ++ check_ocr r c cell [].
Proof.
  intros Hr. unfold cell_findings, rule_findings.
  destruct r; [done|]. simpl. by rewrite <- !app_assoc.
Qed.

Lemma in_numeric_columns c : c ∈ numeric_columns -> c = 3 \/ c = 4.
Proof.
  unfold numeric_columns. rewrite !elem_of_cons, elem_of_nil. tauto.
Qed.

(** *** Whitespace-only cells *)

Lemma lstrip_head s c t : Py.lstrip s = String c t -> Py.isspace c = false.
Proof.
  induction s as [|d s IH]; simpl; [done|].
  destruct (Py.isspace d) eqn:Hd; [done|]. by intros [= <- _].
Qed.

Lemma lstrip_empty s : Py.lstrip s = "" -> Py.all_chars Py.isspace s = true.
Proof.
  induction s as [|d s IH]; simpl; [done|].
  destruct (Py.isspace d); [done|discriminate].
Qed.

Lemma strip_empty s : Py.strip s = "" -> Py.all_chars Py.isspace s = true.
Proof.
  unfold Py.strip. intros Hs. apply lstrip_empty.
  destruct (Py.lstrip s) as [|c t] eqn:Ht; [done|].
  apply lstrip_head in Ht. simpl in Hs. by rewrite Ht in Hs.
Qed.

Lemma contains_whitespace a d s :
  Py.isspace a = false -> Py.all_chars Py.isspace s = true ->
  Py.contains (String a d) s = false.
Proof.
  intros Ha. induction s as [|c s IH]; simpl; [done|].
  intros [Hc Hs]%andb_prop. rewrite IH by done.
  destruct (Ascii.eqb_spec a c) as [->|]; [congruence|done].
Qed.

Lemma whitespace_no_digraph s :
  Py.all_chars Py.isspace s = true ->
  existsb (fun char => Py.contains char s) ocr_digraphs = false.
Proof.
  intros Hs. unfold ocr_digraphs. simpl.
  by rewrite !contains_whitespace.
Qed.

(** *** The rules *)

(** C6: at a numeric column of a non-header row, a cell whose text
    [float] accepts once commas and surrounding whitespace are stripped
    has no critical finding and no finding "Value must be numeric"; any
    other cell has exactly one of each, the same finding. *)
Theorem numeric_rule (data : list (list string)) (r c : nat) (cell : string) :
  r ≠ 0 -> c ∈ numeric_columns -> cell_at data r c = Some cell ->
  let found := findings_at r c (validate_table data) in
  let expected :=
    if Py.float_accepts (Py.strip (Py.remove_char "," cell)) then []
    else [numeric_finding r c] in
  filter (fun f => severity f = "critical") found = expected
  /\ filter (fun f => message f = "Value must be numeric") found = expected.
Proof.
  intros Hr Hc Hcell. simpl. rewrite findings_at_validate, Hcell. simpl.
  rewrite cell_findings_nonheader by done.
  unfold rule_findings, check_mandatory, check_numeric, check_date, check_ocr.
  apply in_numeric_columns in Hc as [-> | ->]; simpl;
    rewrite andb_false_r;
    destruct (Py.float_accepts _), (_ || _); by compute.
Qed.

(** The two cells the specification names. *)
Example numeric_rule_examples :
  Py.float_accepts (Py.strip (Py.remove_char "," "1,234.5")) = true
  /\ Py.float_accepts (Py.strip (Py.remove_char "," "12a4")) = false.
Proof. by vm_compute. Qed.

(** What else [float] takes for a number, and what it does not. *)
Example float_accepts_forms :
  Py.float_accepts <$> ["nan"; "-inf"; "1e5"; "1_000"; "+.5"; " 7 "]
  = [true; true; true; true; true; true]
  /\ Py.float_accepts <$> [""; "."; "1e"; "1__0"; "0x10"; "1 2"; "12a4"]
     = [false; false; false; false; false; false; false].
Proof. by vm_compute. Qed.

Lemma numeric_rule_witness :
  let data := [["h"]; ["a"; "b"; "2024-01-15"; "1,234.5"; "12a4"]] in
  (filter (fun f => severity f = "critical")
     (findings_at 1 3 (validate_table data)) = []
   /\ filter (fun f => message f = "Value must be numeric")
        (findings_at 1 3 (validate_table data)) = [])
  /\ (filter (fun f => severity f = "critical")
        (findings_at 1 4 (validate_table data)) = [numeric_finding 1 4]
      /\ filter (fun f => message f = "Value must be numeric")
           (findings_at 1 4 (validate_table data)) = [numeric_finding 1 4]).
Proof.
  split.
  - apply (numeric_rule _ 1 3 "1,234.5"); [lia | | reflexivity].
    unfold numeric_columns. apply elem_of_cons. by left.
  - apply (numeric_rule _ 1 4 "12a4"); [lia | | reflexivity].
    unfold numeric_columns. apply elem_of_cons. right.
    apply elem_of_cons. by left.
Defined.

(** C7, as the code has it: at the date column of a non-header row, a
    cell whose trimmed text [strptime] accepts under [%Y-%m-%d] has no
    warning-severity finding and no date finding; any other cell has
    exactly one, with the message of [date_finding]. *)
Theorem date_rule (data : list (list string)) (r : nat) (cell : string) :
  r ≠ 0 -> cell_at data r date_column = Some cell ->
  let found := findings_at r date_column (validate_table data) in
  let expected :=
    if Py.strptime_Ymd_accepts (Py.strip cell) then []
    else [date_finding r date_column] in
  filter (fun f => severity f = "warning") found = expected
  /\ filter (fun f => message f = message (date_finding r date_column)) found
     = expected.
Proof.
  intros Hr Hcell. simpl. rewrite findings_at_validate, Hcell. simpl.
  rewrite cell_findings_nonheader by done.
  unfold rule_findings, check_mandatory, check_numeric, check_date, check_ocr.
  simpl. rewrite andb_true_r.
  destruct (Py.is_empty _), (Py.strptime_Ymd_accepts _), (_ || _);
    by compute.
Qed.

Lemma date_rule_witness :
  let data := [["h"]; ["a"; "b"; "15/01/2024"]] in
  filter (fun f => severity f = "warning")
    (findings_at 1 2 (validate_table data)) = [date_finding 1 2]
  /\ filter (fun f => message f = message (date_finding 1 2))
       (findings_at 1 2 (validate_table data)) = [date_finding 1 2].
Proof. apply (date_rule _ 1 "15/01/2024"); [lia | reflexivity]. Defined.

(** What [strptime] accepts and rejects among the texts of interest. *)
Example date_rule_examples :
  Py.strptime_Ymd_accepts (Py.strip "2024-01-15") = true
  /\ Py.strptime_Ymd_accepts (Py.strip "15/01/2024") = false
  /\ Py.strptime_Ymd_accepts (Py.strip "2024-1-5") = true
  /\ Py.strptime_Ymd_accepts (Py.strip "2024-02-30") = false.
Proof. by vm_compute. Qed.

(** C7 as stated fails: a one-digit month and day do not match the
    four-two-two digit pattern, yet the cell gets no finding at all; and
    a text that matches the pattern but is no date gets the finding. *)
Lemma date_rule_counterexample :
  let data := [["h"]; ["a"; "b"; "2024-1-5"]; ["c"; "d"; "2024-02-30"]] in
  (cell_at data 1 2 = Some "2024-1-5"
   /\ iso_pattern (Py.strip "2024-1-5") = false
   /\ findings_at 1 2 (validate_table data) = [])
  /\ (cell_at data 2 2 = Some "2024-02-30"
      /\ iso_pattern (Py.strip "2024-02-30") = true
      /\ findings_at 2 2 (validate_table data) = [date_finding 2 2]).
Proof. by vm_compute. Qed.

(** *** Dates of four, two and two digits *)

Lemma isdecimal_cases c :
  Py.isdecimal c = true ->
  c ∈ ["0"; "1"; "2"; "3"; "4"; "5"; "6"; "7"; "8"; "9"]%char.
Proof.
  destruct c as [[] [] [] [] [] [] [] []]; intros H; try discriminate H;
    set_solver.
Qed.

Local Ltac each_digit H :=
  apply isdecimal_cases in H;
  repeat (apply elem_of_cons in H as [->|H]); [..|by apply elem_of_nil in H].

Lemma month_two_digits {A} a b r (K : nat -> string -> option A) :
  Py.isdecimal a = true -> Py.isdecimal b = true ->
  Py.first_alt Py.month_alts (String a (String b (String "-" r)))
    (fun m r2 => Py.expect "-" r2 (K m))
  = let m := 10 * Py.digit_value a + Py.digit_value b in
    if (1 <=? m) && (m <=? 12) then K m r else None.
Proof.
  intros Ha Hb. each_digit Ha; each_digit Hb;
    vm_compute; try reflexivity; by destruct (K _ r).
Qed.

Lemma day_two_digits {A} a b (f : nat -> string -> A) :
  Py.isdecimal a = true -> Py.isdecimal b = true ->
  Py.first_alt Py.day_alts (String a (String b ""))
    (fun d r4 => Some (f d r4))
  = let d := 10 * Py.digit_value a + Py.digit_value b in
    if (1 <=? d) && (d <=? 31) then Some (f d "")
    else if 1 <=? Py.digit_value a
         then Some (f (Py.digit_value a) (String b ""))
         else None.
Proof.
  intros Ha Hb. each_digit Ha; each_digit Hb; by vm_compute.
Qed.

Lemma expect_hit {A} c r (k : string -> option A) :
  Py.expect c (String c r) k = k r.
Proof. unfold Py.expect. by rewrite Ascii.eqb_refl. Qed.

Lemma days_in_month_le y m : Py.days_in_month y m <= 31.
Proof.
  unfold Py.days_in_month.
  do 12 (destruct m as [|m]; [try destruct (Py.is_leap y); lia|]). lia.
Qed.

Lemma valid_date_spec y m d :
  Py.valid_date y m d = true
  <-> 1 <= y <= 9999 /\ 1 <= m <= 12 /\ 1 <= d <= Py.days_in_month y m.
Proof.
  unfold Py.valid_date. rewrite !andb_true_iff, !Nat.leb_le. tauto.
Qed.

Lemma valid_date_false y m d :
  ~ (1 <= m <= 12 /\ 1 <= d <= 31) -> Py.valid_date y m d = false.
Proof.
  intros Hn. destruct (Py.valid_date y m d) eqn:Hv; [|done].
  apply valid_date_spec in Hv. pose proof (days_in_month_le y m). lia.
Qed.

(** On a text of four digits, a dash, two digits, a dash and two
    digits, [strptime] decides whether the three numbers are a date. *)
Lemma strptime_iso s :
  iso_pattern s = true ->
  Py.strptime_Ymd_accepts s
  = let '(y, m, d) := iso_fields s in Py.valid_date y m d.
Proof.
  destruct s as [|y1 [|y2 [|y3 [|y4 [|d1 [|m1 [|m2 [|d2 [|a1 [|a2 [|? ?]]]]]]]]]]];
    try discriminate.
  unfold iso_pattern. rewrite !andb_true_iff.
  intros [[[[[[[[[Hy1 Hy2] Hy3] Hy4] Hd1%Ascii.eqb_eq] Hm1] Hm2]
              Hd2%Ascii.eqb_eq] Ha1] Ha2].
  subst d1 d2.
  unfold Py.strptime_Ymd_accepts, Py.match_Ymd, Py.year4, iso_fields.
  rewrite Hy1, Hy2, Hy3, Hy4. cbv [andb].
  rewrite (expect_hit "-" (String m1 _)).
  rewrite (month_two_digits m1 m2) by done. cbv zeta.
  destruct ((1 <=? _) && (_ <=? 12)) eqn:Hm.
  - cbv beta. rewrite (day_two_digits a1 a2) by done. cbv zeta.
    destruct ((1 <=? _) && (_ <=? 31)) eqn:Hd; [done|].
    rewrite andb_false_iff, !Nat.leb_gt in Hd.
    destruct (1 <=? Py.digit_value a1); simpl;
      symmetry; apply valid_date_false; lia.
  - rewrite andb_false_iff, !Nat.leb_gt in Hm.
    symmetry; apply valid_date_false; lia.
Qed.

(** C7 on the texts the specification has in mind: a cell of the date
    column whose trimmed text is four digits, a dash, two digits, a
    dash and two digits gets the date finding exactly when the three
    numbers are no calendar date. *)
Lemma date_rule_iso (data : list (list string)) (r : nat) (cell : string) :
  r ≠ 0 -> cell_at data r date_column = Some cell ->
  iso_pattern (Py.strip cell) = true ->
  filter (fun f => severity f = "warning")
    (findings_at r date_column (validate_table data))
  = let '(y, m, d) := iso_fields (Py.strip cell) in
    if Py.valid_date y m d then [] else [date_finding r date_column].
Proof.
  intros Hr Hcell Hiso. rewrite findings_at_validate, Hcell. simpl.
  rewrite cell_findings_nonheader by done.
  unfold rule_findings, check_mandatory, check_numeric, check_date, check_ocr.
  simpl. rewrite andb_true_r, (strptime_iso _ Hiso).
  destruct (iso_fields (Py.strip cell)) as [[y m] d].
  destruct (Py.is_empty _), (Py.valid_date y m d), (_ || _); by compute.
Qed.

(** C8: a non-header cell that contains one of the digraphs gets the
    info-severity finding after, and together with, whatever the
    mandatory, numeric and date rules found in it. *)
Theorem ocr_rule (data : list (list string)) (r c : nat) (cell : string) :
  r ≠ 0 -> cell_at data r c = Some cell ->
  (exists d, d ∈ ocr_digraphs /\ Py.contains d cell = true) ->
  findings_at r c (validate_table data)
  = rule_findings r c cell ++ [ocr_finding r c]
  /\ type (ocr_finding r c) = "warning"
  /\ severity (ocr_finding r c) = "info".
Proof.
  intros Hr Hcell (d & Hd & Hin). split; [|done].
  rewrite findings_at_validate, Hcell. simpl.
  rewrite cell_findings_nonheader by done. f_equal.
  unfold check_ocr.
  assert (existsb (fun char => Py.contains char cell) ocr_digraphs = true)
    as ->; [|done].
  apply existsb_exists. exists d. split; [|done].
  by apply list_elem_of_In.
Qed.

Lemma ocr_rule_witness :
  let data := [["h"]; ["a"; ""; "x"; "1O0"]] in
  findings_at 1 3 (validate_table data)
  = rule_findings 1 3 "1O0" ++ [ocr_finding 1 3]
  /\ type (ocr_finding 1 3) = "warning"
  /\ severity (ocr_finding 1 3) = "info".
Proof.
  apply (ocr_rule _ 1 3 "1O0"); [lia | reflexivity |].
  exists "O0". split; [|reflexivity].
  unfold ocr_digraphs. apply elem_of_cons. by left.
Defined.

(** The numeric finding of that cell is kept next to the OCR one. *)
Example ocr_rule_example :
  rule_findings 1 3 "1O0" = [numeric_finding 1 3].
Proof. by vm_compute. Qed.

(** C9: an empty or whitespace-only cell at column 2 of a non-header
    row gets exactly the mandatory finding and the date finding. *)
Theorem blank_date_cell (data : list (list string)) (r : nat) (cell : string) :
  r ≠ 0 -> cell_at data r 2 = Some cell -> Py.strip cell = "" ->
  findings_at r 2 (validate_table data)
  = [mandatory_finding r 2; date_finding r 2].
Proof.
  intros Hr Hcell Hblank.
  rewrite findings_at_validate, Hcell. simpl.
  rewrite cell_findings_nonheader by done.
  unfold rule_findings, check_mandatory, check_numeric, check_date, check_ocr.
  rewrite Hblank, whitespace_no_digraph by by apply strip_empty.
  done.
Qed.

Lemma blank_date_cell_witness :
  let data := [["h"]; ["a"; "b"; "  "]] in
  findings_at 1 2 (validate_table data)
  = [mandatory_finding 1 2; date_finding 1 2].
Proof. apply (blank_date_cell _ 1 "  "); [lia | reflexivity | reflexivity]. Defined.

End ValidateFacts.

(** ** Results and loops *)
Module ExnFacts.

Section ForEach.
Context {A B : Type} (f : A -> result B).

Lemma for_each_Ok xs ys :
  for_each f xs = Ok ys -> Forall2 (fun x y => f x = Ok y) xs ys.
Proof.
  revert ys. induction xs as [|x xs IH]; simpl; intros ys.
  - intros [= <-]. constructor.
  - destruct (f x) as [y|e] eqn:Hx; simpl; [|done].
    destruct (for_each f xs) as [ys'|e]; simpl; [|done].
    intros [= <-]. constructor; auto.
Qed.

Lemma for_each_all_Ok xs ys :
  Forall2 (fun x y => f x = Ok y) xs ys -> for_each f xs = Ok ys.
Proof.
  induction 1 as [|x y xs ys Hx _ IH]; simpl; [done|].
  by rewrite Hx, IH.
Qed.

(** The loop raises what its first raising round raises. *)
Lemma for_each_Raise pre x post ys e :
  Forall2 (fun x y => f x = Ok y) pre ys -> f x = Raise e ->
  for_each f (pre ++ x :: post) = Raise e.
Proof.
  induction 1 as [|x' y pre ys Hx' _ IH]; simpl; intros Hx.
  - by rewrite Hx.
  - by rewrite Hx', IH.
Qed.

End ForEach.

Lemma for_each_ext {A B} (f g : A -> result B) xs :
  (forall x, x ∈ xs -> f x = g x) -> for_each f xs = for_each g xs.
Proof.
  induction xs as [|x xs IH]; simpl; intros Hfg; [done|].
  rewrite Hfg by (by left). rewrite IH; [done|].
  intros y Hy. apply Hfg. by right.
Qed.

End ExnFacts.

(** ** The exporters *)
Module ExporterFacts.
Import Pandas Exporter ExnFacts.

Lemma for_each_Forall2 {A B} (f g : A -> result B) xs1 xs2 :
  Forall2 (fun x1 x2 => f x1 = g x2) xs1 xs2 ->
  for_each f xs1 = for_each g xs2.
Proof.
  induction 1 as [|x1 x2 xs1 xs2 Hx _ IH]; simpl; [done|].
  by rewrite Hx, IH.
Qed.

(** The first element with a decidable property, and what is before. *)
Lemma first_with {A} (P : A -> Prop) `{!forall x, Decision (P x)} l :
  Exists P l ->
  exists pre x post, l = pre ++ x :: post /\ Forall (fun y => ~ P y) pre /\ P x.
Proof.
  induction l as [|y l IH]; intros HE; [by apply Exists_nil in HE|].
  destruct (decide (P y)) as [Hy|Hy].
  - exists [], y, l. by repeat split.
  - apply Exists_cons in HE as [?|HE]; [done|].
    destruct (IH HE) as (pre & x & post & -> & Hpre & Hx).
    exists (y :: pre), x, post. repeat split; [|done]. by constructor.
Qed.

Section Exporters.
Context {Any PyFloat : Type}.
Variable str : Any -> string.
Variables to_excel to_csv : DataFrame string Any -> result string.

Local Abbreviation TableCell := (TableCell Any PyFloat).
Local Abbreviation TableRow := (TableRow Any PyFloat).
Local Abbreviation TableData := (TableData Any PyFloat).

Implicit Types (row : TableRow) (data : TableData) (hs : list string).

(** *** Lookups *)

Lemma getitem_Some row h cell :
  cells row !! h = Some cell -> getitem row h = Ok cell.
Proof. unfold getitem. by intros ->. Qed.

Lemma getitem_None row h :
  cells row !! h = None -> getitem row h = Raise (KeyError h).
Proof. unfold getitem. by intros ->. Qed.

Lemma fold_dict_step_Raise row hs e :
  fold_left (dict_step row) hs (Raise e) = Raise e.
Proof. induction hs as [|h hs IH]; simpl; [done|]. apply IH. Qed.

Lemma fold_dict_step_present row hs d :
  Forall (fun h => is_Some (cells row !! h)) hs ->
  exists d', fold_left (dict_step row) hs (Ok d) = Ok d'.
Proof.
  intros Hhs. revert d.
  induction Hhs as [|h hs [cell Hh] _ IH]; intros d; simpl; [by eexists|].
  rewrite (getitem_Some _ _ _ Hh). simpl. apply IH.
Qed.

Lemma fold_dict_step_missing row pre k post d :
  Forall (fun h => ~ cells row !! h = None) pre -> cells row !! k = None ->
  fold_left (dict_step row) (pre ++ k :: post) (Ok d) = Raise (KeyError k).
Proof.
  intros Hpre Hk. revert d.
  induction Hpre as [|h pre Hh _ IH]; intros d; simpl.
  - rewrite (getitem_None _ _ Hk). simpl. apply fold_dict_step_Raise.
  - destruct (cells row !! h) as [cell|] eqn:Hc; [|done].
    rewrite (getitem_Some _ _ _ Hc). simpl. apply IH.
Qed.

Lemma row_dict_present row hs :
  Forall (fun h => is_Some (cells row !! h)) hs ->
  exists d, row_dict hs row = Ok d.
Proof. apply fold_dict_step_present. Qed.

Lemma row_dict_missing row pre k post :
  Forall (fun h => ~ cells row !! h = None) pre -> cells row !! k = None ->
  row_dict (pre ++ k :: post) row = Raise (KeyError k).
Proof. apply fold_dict_step_missing. Qed.

Lemma leaves_present row hs :
  Forall (fun h => is_Some (cells row !! h)) hs ->
  exists leaves, for_each (leaf str row) hs = Ok leaves
                 /\ leaves_of str row hs leaves.
Proof.
  induction 1 as [|h hs [cell Hh] _ (leaves & IH & Hl)]; simpl.
  - exists []. split; [done|constructor].
  - unfold leaf at 1. rewrite (getitem_Some _ _ _ Hh). simpl. rewrite IH.
    eexists. split; [done|]. constructor; [|done]. by exists cell.
Qed.

Lemma tallymessage_present row hs :
  Forall (fun h => is_Some (cells row !! h)) hs ->
  exists leaves, tallymessage str hs row
                 = Ok (ET.Elem "TALLYMESSAGE" None leaves)
                 /\ leaves_of str row hs leaves.
Proof.
  intros (leaves & Hl & Hof)%leaves_present. exists leaves.
  unfold tallymessage. by rewrite Hl.
Qed.

Lemma tallymessage_missing row pre k post :
  Forall (fun h => ~ cells row !! h = None) pre -> cells row !! k = None ->
  tallymessage str (pre ++ k :: post) row = Raise (KeyError k).
Proof.
  intros Hpre Hk. unfold tallymessage.
  assert (Forall (fun h => is_Some (cells row !! h)) pre) as Hpre'.
  { eapply Forall_impl; [done|]. intros h Hh. simpl in Hh.
    by destruct (cells row !! h); [eexists|]. }
  apply leaves_present in Hpre' as (leaves & Hl & _).
  rewrite (for_each_Raise _ pre k post leaves (KeyError k)); [done| |].
  - by apply for_each_Ok.
  - unfold leaf. by rewrite (getitem_None _ _ Hk).
Qed.

(** *** Whole tables *)

Lemma to_frame_complete data :
  complete data -> exists df, to_frame data = Ok df.
Proof.
  unfold complete, to_frame. intros Hc.
  assert (exists ds, for_each (row_dict (headers data)) (rows data) = Ok ds)
    as [ds ->]; [|by eexists].
  induction Hc as [|row rs Hrow _ [ds IH]]; simpl; [by eexists|].
  destruct (row_dict_present row _ Hrow) as [d ->]. simpl. rewrite IH.
  by eexists.
Qed.

Lemma save_as_xml_root_complete data :
  complete data ->
  exists ms, save_as_xml_root str data = Ok (envelope ms)
             /\ records_of str data ms.
Proof.
  unfold complete, save_as_xml_root, records_of. intros Hc.
  assert (exists ms,
            for_each (tallymessage str (headers data)) (rows data) = Ok ms
            /\ Forall2 (fun row m => exists leaves,
                 m = ET.Elem "TALLYMESSAGE" None leaves
                 /\ leaves_of str row (headers data) leaves) (rows data) ms)
    as (ms & -> & Hms); [|by exists ms].
  induction Hc as [|row rs Hrow _ (ms & IH & Hms)]; simpl.
  - exists []. split; [done|constructor].
  - destruct (tallymessage_present row _ Hrow) as (leaves & -> & Hl).
    simpl. rewrite IH. eexists. split; [done|].
    constructor; [|done]. by exists leaves.
Qed.

(** A table that is not complete: its first row that omits a header,
    and the first header that row omits. *)
Lemma first_omission data :
  ~ complete data ->
  exists pre row post hpre k hpost,
    rows data = pre ++ row :: post
    /\ headers data = hpre ++ k :: hpost
    /\ Forall (fun r => Forall (fun h => is_Some (cells r !! h))
                          (headers data)) pre
    /\ Forall (fun h => ~ cells row !! h = None) hpre
    /\ cells row !! k = None.
Proof.
  unfold complete. intros Hn. apply not_Forall_Exists in Hn; [|apply _].
  apply first_with in Hn as (pre & row & post & Hrows & Hpre & Hrow);
    [|apply _].
  apply not_Forall_Exists in Hrow; [|apply _].
  apply first_with in Hrow as (hpre & k & hpost & Hhs & Hhpre & Hk);
    [|apply _].
  exists pre, row, post, hpre, k, hpost. repeat split; try done.
  - eapply Forall_impl; [done|]. intros r Hr. simpl in Hr.
    by destruct (decide (Forall (fun h => is_Some (cells r !! h))
                           (headers data))).
  - eapply Forall_impl; [done|]. intros h Hh Hnone. simpl in Hh.
    apply Hh. rewrite Hnone. by intros [].
  - destruct (cells row !! k) eqn:E; [|done]. exfalso. apply Hk. by eexists.
Qed.

(** C10: when every row carries a cell for every declared header, every
    lookup [row.cells[header]] of the exporters succeeds, and so do the
    loops that build the frame and the tree; when some row omits a
    declared header, all three exporters raise [KeyError] for a declared
    header and write nothing. *)
Theorem export_lookup_precondition data :
  (complete data ->
   (forall row h, row ∈ rows data -> h ∈ headers data ->
                  exists cell, getitem row h = Ok cell)
   /\ (exists df, to_frame data = Ok df)
   /\ (exists root, save_as_xml_root str data = Ok root))
  /\ (~ complete data ->
      exists k, k ∈ headers data
        /\ save_as_xlsx to_excel data = Raise (KeyError k)
        /\ save_as_csv to_csv data = Raise (KeyError k)
        /\ save_as_xml str data = Raise (KeyError k)).
Proof.
  split.
  - intros Hc. repeat split.
    + intros row h Hrow Hh. unfold complete in Hc.
      rewrite Forall_forall in Hc. specialize (Hc _ Hrow).
      rewrite Forall_forall in Hc. destruct (Hc _ Hh) as [cell Hcell].
      exists cell. by apply getitem_Some.
    + by apply to_frame_complete.
    + destruct (save_as_xml_root_complete data Hc) as (ms & -> & _).
      by eexists.
  - intros (pre & row & post & hpre & k & hpost & Hrows & Hhs & Hpre
            & Hhpre & Hk)%first_omission.
    exists k. split; [rewrite Hhs; set_solver|].
    assert (exists ds, Forall2 (fun r d => row_dict (headers data) r = Ok d)
                         pre ds) as [ds Hds].
    { clear Hrows. induction Hpre as [|r pre Hr _ [ds IH]].
      - exists []. constructor.
      - destruct (row_dict_present r _ Hr) as [d Hd].
        exists (d :: ds). by constructor. }
    assert (exists ms, Forall2 (fun r m => tallymessage str (headers data) r
                                            = Ok m) pre ms) as [ms Hms].
    { clear Hrows Hds. induction Hpre as [|r pre Hr _ [ms IH]].
      - exists []. constructor.
      - destruct (tallymessage_present r _ Hr) as (leaves & Hm & _).
        eexists (_ :: ms). by constructor. }
    assert (to_frame data = Raise (KeyError k)) as Hframe.
    { unfold to_frame. rewrite Hrows.
      rewrite (for_each_Raise _ pre row post ds (KeyError k)); [done|done|].
      rewrite Hhs. by apply row_dict_missing. }
    unfold save_as_xlsx, save_as_csv, save_as_xml, save_as_xml_root.
    rewrite Hframe, Hrows.
    rewrite (for_each_Raise _ pre row post ms (KeyError k)); [done|done|].
    rewrite Hhs. by apply tallymessage_missing.
Qed.

(** *** Metadata *)

Lemma lookup_values row1 row2 h :
  value <$> cells row1 = value <$> cells row2 ->
  value <$> (cells row1 !! h) = value <$> (cells row2 !! h).
Proof. intros Hv. rewrite <- !lookup_fmap. by rewrite Hv. Qed.

Lemma dict_step_values row1 row2 acc h :
  value <$> cells row1 = value <$> cells row2 ->
  dict_step row1 acc h = dict_step row2 acc h.
Proof.
  intros Hv%(lookup_values _ _ h). unfold dict_step, getitem.
  destruct acc as [d|e]; simpl; [|done].
  destruct (cells row1 !! h), (cells row2 !! h); simpl in *; congruence.
Qed.

Lemma row_dict_values row1 row2 hs :
  value <$> cells row1 = value <$> cells row2 ->
  row_dict hs row1 = row_dict hs row2.
Proof.
  intros Hv. unfold row_dict. generalize (Ok [] : result (list (string * obj Any))).
  induction hs as [|h hs IH]; intros acc; simpl; [done|].
  by rewrite (dict_step_values _ _ _ _ Hv), IH.
Qed.

Lemma leaf_values row1 row2 h :
  value <$> cells row1 = value <$> cells row2 ->
  leaf str row1 h = leaf str row2 h.
Proof.
  intros Hv%(lookup_values _ _ h). unfold leaf, getitem.
  destruct (cells row1 !! h), (cells row2 !! h); simpl in *; congruence.
Qed.

Lemma tallymessage_values row1 row2 hs :
  value <$> cells row1 = value <$> cells row2 ->
  tallymessage str hs row1 = tallymessage str hs row2.
Proof.
  intros Hv. unfold tallymessage.
  rewrite (for_each_ext (leaf str row1) (leaf str row2)); [done|].
  intros h _. by apply leaf_values.
Qed.

Lemma cell_values_rows data1 data2 :
  cell_values data1 = cell_values data2 ->
  headers data1 = headers data2
  /\ Forall2 (fun row1 row2 => value <$> cells row1 = value <$> cells row2)
       (rows data1) (rows data2).
Proof.
  unfold cell_values. intros [= Hh Hr]. split; [done|].
  revert Hr. generalize (rows data1) (rows data2).
  induction l as [|r1 l IH]; intros [|r2 l']; simpl; intros [=];
    constructor; auto.
Qed.

(** C4: two tables with the same headers and the same value in every
    cell, whatever their metadata, are exported alike by each of the
    three exporters. *)
Theorem export_ignores_metadata data1 data2 :
  cell_values data1 = cell_values data2 ->
  save_as_xlsx to_excel data1 = save_as_xlsx to_excel data2
  /\ save_as_csv to_csv data1 = save_as_csv to_csv data2
  /\ save_as_xml str data1 = save_as_xml str data2.
Proof.
  intros [Hh Hr]%cell_values_rows.
  assert (to_frame data1 = to_frame data2) as Hframe.
  { unfold to_frame. rewrite <- Hh.
    rewrite (for_each_Forall2 (row_dict (headers data1))
               (row_dict (headers data1)) (rows data1) (rows data2)); [done|].
    eapply Forall2_impl; [done|]. intros ??. apply row_dict_values. }
  unfold save_as_xlsx, save_as_csv, save_as_xml, save_as_xml_root.
  rewrite Hframe, <- Hh.
  rewrite (for_each_Forall2 (tallymessage str (headers data1))
             (tallymessage str (headers data1)) (rows data1) (rows data2));
    [done|].
  eapply Forall2_impl; [done|]. intros ??. apply tallymessage_values.
Qed.

End Exporters.
End ExporterFacts.

(** ** Documents *)
Module ETFacts.
Import ET.

(** Induction over an element and, with it, all its children. *)
Lemma Element_forall_ind (P : Element -> Prop)
    (step : forall t x cs, Forall P cs -> P (Elem t x cs)) :
  forall e, P e.
Proof.
  fix IH 1. intros [t x cs]. apply step.
  induction cs as [|c cs IHcs]; constructor; [apply IH|apply IHcs].
Qed.

Lemma name_start_not_brace c :
  name_start_char c = true -> Ascii.eqb "{" c = false.
Proof. destruct (Ascii.eqb_spec "{" c) as [<-|]; [by compute|done]. Qed.

(** A [Name] does not start with a brace. *)
Lemma xml_name_plain t : xml_name t = true -> Py.startswith "{" t = false.
Proof.
  destruct t as [|c t]; [done|].
  intros [Hc _]%andb_prop.
  change (Py.startswith "{" (String c t)) with (Ascii.eqb "{" c && true).
  by rewrite (name_start_not_brace c).
Qed.

Lemma well_formed_Elem t x cs :
  well_formed (Elem t x cs)
  = xml_name t && Py.all_chars xml_char (default "" x)
    && forallb well_formed cs.
Proof. done. Qed.

Lemma plain_tags_Elem t x cs :
  plain_tags (Elem t x cs)
  = negb (Py.startswith "{" t) && forallb plain_tags cs.
Proof. done. Qed.

Lemma well_formed_plain e : well_formed e = true -> plain_tags e = true.
Proof.
  induction e as [t x cs IH] using Element_forall_ind.
  rewrite well_formed_Elem, plain_tags_Elem.
  intros [[Ht _]%andb_prop Hcs]%andb_prop.
  rewrite (xml_name_plain t Ht). simpl.
  rewrite forallb_forall in Hcs. apply forallb_forall.
  rewrite Forall_forall in IH. intros c Hc.
  apply IH; [by apply list_elem_of_In|by apply Hcs].
Qed.

Lemma string_app_cons c (a b : string) :
  String c a +:+ b = String c (a +:+ b).
Proof. done. Qed.

Lemma string_app_assoc (a b c : string) : (a +:+ b) +:+ c = a +:+ (b +:+ c).
Proof.
  induction a as [|x a IH]; [done|].
  by rewrite !string_app_cons, IH.
Qed.

Lemma utf8_encode_app a b :
  utf8_encode (a +:+ b) = utf8_encode a +:+ utf8_encode b.
Proof.
  induction a as [|x a IH]; [done|].
  rewrite string_app_cons. simpl. by rewrite IH, string_app_assoc.
Qed.

(** What is written for a tree without qualified names: the
    declaration, then the encoded root element. *)
Lemma write_plain root :
  plain_tags root = true ->
  write root = Some (xml_declaration +:+ utf8_encode (serialize root)).
Proof. unfold write. intros ->. by rewrite utf8_encode_app. Qed.

(** *** The grammar *)

Lemma content_app a b : is_content a -> is_content b -> is_content (a +:+ b).
Proof.
  intros Ha Hb. induction Ha as [|c s Hc _ IH|r s Hr _ IH|e s He _ IH].
  - done.
  - rewrite string_app_cons. by constructor.
  - rewrite string_app_assoc. by apply content_ref.
  - rewrite string_app_assoc. by apply content_element.
Qed.

Lemma content_escape x :
  Py.all_chars xml_char x = true -> is_content (escape_cdata x).
Proof.
  induction x as [|c x IH]; [constructor|].
  intros [Hc Hx]%andb_prop. specialize (IH Hx).
  change (escape_cdata (String c x))
    with ((if Ascii.eqb c "&" then "&amp;"
           else if Ascii.eqb c "<" then "&lt;"
           else if Ascii.eqb c ">" then "&gt;"
           else String c EmptyString) +:+ escape_cdata x).
  destruct (Ascii.eqb c "&") eqn:Hamp;
    [apply content_ref; [set_solver|done]|].
  destruct (Ascii.eqb c "<") eqn:Hlt;
    [apply content_ref; [set_solver|done]|].
  destruct (Ascii.eqb c ">") eqn:Hgt;
    [apply content_ref; [set_solver|done]|].
  rewrite string_app_cons. apply content_char; [|done].
  unfold char_data. by rewrite Hc, Hamp, Hlt, Hgt.
Qed.

Lemma content_children cs :
  Forall (fun c => is_element (serialize c)) cs ->
  is_content (fold_right (fun c acc => serialize c +:+ acc) "" cs).
Proof.
  induction 1 as [|c cs Hc _ IH]; [constructor|].
  by apply content_element.
Qed.

Lemma serialize_Elem t x cs :
  serialize (Elem t x cs)
  = match default "" x, cs with
    | EmptyString, [] => "<" +:+ t +:+ " />"
    | _, _ =>
        "<" +:+ t +:+ ">"
        +:+ (default "" (escape_cdata <$> x)
             +:+ fold_right (fun c acc => serialize c +:+ acc) "" cs)
        +:+ "</" +:+ t +:+ ">"
    end.
Proof. done. Qed.

(** The serialisation of a well-formed tree is an element. *)
Lemma serialize_is_element e :
  well_formed e = true -> is_element (serialize e).
Proof.
  induction e as [t x cs IH] using Element_forall_ind.
  rewrite well_formed_Elem, serialize_Elem.
  intros [[Ht Hx]%andb_prop Hcs]%andb_prop.
  assert (is_content (default "" (escape_cdata <$> x)
                      +:+ fold_right (fun c acc => serialize c +:+ acc) "" cs))
    as Hbody.
  { apply content_app.
    - destruct x as [x|]; [by apply content_escape|constructor].
    - apply content_children. rewrite forallb_forall in Hcs.
      rewrite Forall_forall in IH |- *. intros c Hc.
      apply IH; [done|]. by apply Hcs, list_elem_of_In. }
  destruct (default "" x), cs; try by apply tagged_element.
  by apply empty_element.
Qed.

End ETFacts.

(** ** The XML exporter *)
Module XmlExportFacts.
Import Pandas Exporter ExnFacts ExporterFacts ETFacts.

Lemma request_data_envelope ms : request_data (envelope ms) = ms.
Proof. done. Qed.

Lemma well_formed_envelope ms :
  ET.well_formed (envelope ms) = forallb ET.well_formed ms.
Proof.
  unfold envelope. rewrite !well_formed_Elem. simpl.
  by rewrite !andb_true_r.
Qed.

Section Xml.
Context {Any PyFloat : Type}.
Variable str : Any -> string.

Local Abbreviation TableRow := (TableRow Any PyFloat).
Local Abbreviation TableData := (TableData Any PyFloat).

Lemma well_formed_leaves (row : TableRow) hs leaves :
  Forall (fun h => ET.xml_name h = true) hs ->
  Forall (fun h => text_is_chars str row h = true) hs ->
  leaves_of str row hs leaves ->
  forallb ET.well_formed leaves = true.
Proof.
  intros Hnames Htexts Hl. unfold leaves_of in Hl.
  induction Hl as [|h l hs leaves (cell & Hcell & ->) _ IH]; [done|].
  apply Forall_cons in Hnames as [Hh Hhs].
  apply Forall_cons in Htexts as [Ht Hts].
  unfold text_is_chars in Ht. rewrite Hcell in Ht.
  simpl. rewrite Hh, Ht. simpl. by apply IH.
Qed.

Lemma well_formed_records hs (rs : list TableRow) ms :
  Forall (fun h => ET.xml_name h = true) hs ->
  Forall (fun row => Forall (fun h => text_is_chars str row h = true) hs) rs ->
  Forall2 (fun row m => exists leaves,
             m = ET.Elem "TALLYMESSAGE" None leaves
             /\ leaves_of str row hs leaves) rs ms ->
  forallb ET.well_formed ms = true.
Proof.
  intros Hnames Htexts Hrec. revert Htexts.
  induction Hrec as [|row m rs ms (leaves & -> & Hl) _ IH]; [done|].
  intros [Hrow Hrs]%Forall_cons.
  simpl. rewrite (well_formed_leaves row _ leaves Hnames Hrow Hl).
  simpl. by apply IH.
Qed.

(** C3, for the tables the exporter handles: when every row carries a
    cell for every header, every header is an XML name and every cell
    text holds XML characters only, [save_as_xml] writes the UTF-8
    declaration followed by an [ENVELOPE] element, well-formed as a
    tree and in the grammar of elements as a text, whose
    [REQUESTDATA] block holds one [TALLYMESSAGE] per row, in row order,
    each with one leaf per header, in header order, named after the
    header and holding the text of the cell's value. *)
Theorem xml_export_structure (data : TableData) :
  complete data -> headers_are_names data -> texts_are_chars str data ->
  exists ms,
    save_as_xml_root str data = Ok (envelope ms)
    /\ save_as_xml str data
       = Ok (Some (ET.xml_declaration
                   +:+ ET.utf8_encode (ET.serialize (envelope ms))))
    /\ ET.well_formed (envelope ms) = true
    /\ ET.is_element (ET.serialize (envelope ms))
    /\ request_data (envelope ms) = ms
    /\ records_of str data ms.
Proof.
  intros Hc Hnames Htexts.
  destruct (save_as_xml_root_complete str data Hc) as (ms & Hroot & Hrec).
  assert (ET.well_formed (envelope ms) = true) as Hwf.
  { rewrite well_formed_envelope.
    by apply (well_formed_records (headers data) (rows data)). }
  exists ms. repeat split; try done.
  - unfold save_as_xml. rewrite Hroot. simpl.
    by rewrite (write_plain _ (well_formed_plain _ Hwf)).
  - by apply serialize_is_element.
Qed.

End Xml.

End XmlExportFacts.

(** ** The exporters on sample tables *)
Module ExportExamples.
Import Pandas Exporter ExporterFacts XmlExportFacts Samples.

Lemma ledger_complete : complete ledger.
Proof. unfold complete. refine (bool_decide_unpack _ _). by vm_compute. Qed.

Lemma ledger_names : headers_are_names ledger.
Proof.
  unfold headers_are_names. refine (bool_decide_unpack _ _). by vm_compute.
Qed.

Lemma ledger_texts : texts_are_chars id ledger.
Proof.
  unfold texts_are_chars. refine (bool_decide_unpack _ _). by vm_compute.
Qed.

Lemma xml_export_structure_witness :
  exists ms,
    save_as_xml_root id ledger = Ok (envelope ms)
    /\ save_as_xml id ledger
       = Ok (Some (ET.xml_declaration
                   +:+ ET.utf8_encode (ET.serialize (envelope ms))))
    /\ ET.well_formed (envelope ms) = true
    /\ ET.is_element (ET.serialize (envelope ms))
    /\ request_data (envelope ms) = ms
    /\ records_of id ledger ms.
Proof.
  apply (xml_export_structure id ledger);
    [apply ledger_complete|apply ledger_names|apply ledger_texts].
Defined.

(** The two-column, three-row table: three records of two leaves. *)
Example ledger_records :
  bind (save_as_xml_root id ledger) (fun root => Ok (request_data root))
  = Ok [ ET.Elem "TALLYMESSAGE" None
           [ ET.Elem "Date" (Some "2024-01-15") [];
             ET.Elem "Amount" (Some "1,234.5") [] ];
         ET.Elem "TALLYMESSAGE" None
           [ ET.Elem "Date" (Some "2024-01-16") [];
             ET.Elem "Amount" (Some "20") [] ];
         ET.Elem "TALLYMESSAGE" None
           [ ET.Elem "Date" (Some "2024-01-17") [];
             ET.Elem "Amount" (Some "A&B") [] ] ].
Proof. by vm_compute. Qed.

(** C3 as stated fails: a row without a cell under a declared header
    makes the exporter raise instead of writing a document, and a header
    that is no XML name is written as a tag all the same. *)
Lemma xml_export_counterexample :
  ~ complete ledger_with_gap
  /\ save_as_xml id ledger_with_gap = Raise (KeyError "Amount")
  /\ exists root bytes,
       save_as_xml_root id invoices = Ok root
       /\ ET.well_formed root = false
       /\ save_as_xml id invoices = Ok (Some bytes)
       /\ Py.contains "<Invoice No>7</Invoice No>" bytes = true.
Proof.
  split; [|split].
  - unfold complete. intros Hc. apply (bool_decide_pack _) in Hc.
    by vm_compute in Hc.
  - by vm_compute.
  - eexists _, _. by vm_compute.
Qed.

Lemma export_ignores_metadata_witness :
  save_as_xlsx plain_lines ledger = save_as_xlsx plain_lines ledger_reviewed
  /\ save_as_csv plain_lines ledger = save_as_csv plain_lines ledger_reviewed
  /\ save_as_xml id ledger = save_as_xml id ledger_reviewed.
Proof.
  apply (export_ignores_metadata id plain_lines plain_lines ledger
           ledger_reviewed).
  by vm_compute.
Defined.

(** The metadata of the two tables do differ. *)
Example ledger_reviewed_differs : ledger ≠ ledger_reviewed.
Proof.
  intros Heq. apply (f_equal (fun d => metadata <$> (rows d !! 0
                                 ≫= fun row => cells row !! "Date"))) in Heq.
  by vm_compute in Heq.
Qed.

Lemma export_lookup_precondition_witness :
  ((forall row h, row ∈ rows ledger -> h ∈ headers ledger ->
                  exists cell, getitem row h = Ok cell)
   /\ (exists df, to_frame ledger = Ok df)
   /\ (exists root, save_as_xml_root id ledger = Ok root))
  /\ (exists k, k ∈ headers ledger_with_gap
        /\ save_as_xlsx plain_lines ledger_with_gap = Raise (KeyError k)
        /\ save_as_csv plain_lines ledger_with_gap = Raise (KeyError k)
        /\ save_as_xml id ledger_with_gap = Raise (KeyError k)).
Proof.
  split.
  - apply (export_lookup_precondition id plain_lines plain_lines ledger).
    apply ledger_complete.
  - apply (export_lookup_precondition id plain_lines plain_lines
             ledger_with_gap).
    unfold complete. intros Hc. apply (bool_decide_pack _) in Hc.
    by vm_compute in Hc.
Defined.

End ExportExamples.

(** ** Frames *)
Module PandasFacts.
Import Pandas ExnFacts.

Section Frames.
Context {L A : Type} `{EqDecision L}.
Implicit Types (l : list L) (d : DataFrame L A) (r : list (obj A)).

(** *** Labels in order of first appearance *)

Lemma elem_of_unique x l : x ∈ unique l <-> x ∈ l.
Proof.
  induction l as [|y l IH]; simpl; [done|].
  rewrite !elem_of_cons, list_elem_of_filter, IH.
  destruct (decide (x = y)); tauto.
Qed.

Lemma NoDup_unique l : NoDup (unique l).
Proof.
  induction l as [|y l IH]; simpl; [constructor|].
  constructor; [|by apply NoDup_filter].
  rewrite list_elem_of_filter. tauto.
Qed.

Lemma filter_ne_absent x l : x ∉ l -> filter (fun y => y ≠ x) l = l.
Proof.
  induction l as [|y l IH]; [done|].
  intros [Hne Hl]%not_elem_of_cons.
  rewrite filter_cons_True by done. by rewrite IH.
Qed.

Lemma unique_NoDup l : NoDup l -> unique l = l.
Proof.
  induction 1 as [|x l Hx _ IH]; simpl; [done|].
  by rewrite IH, filter_ne_absent.
Qed.

Lemma unique_app l1 l2 :
  unique (l1 ++ l2) = unique l1 ++ filter (fun y => y ∉ l1) (unique l2).
Proof.
  induction l1 as [|x l1 IH]; simpl.
  - symmetry. induction (unique l2) as [|y u IHu]; [done|].
    rewrite filter_cons_True by apply not_elem_of_nil. by rewrite IHu.
  - rewrite IH, filter_app, list_filter_filter. f_equal. f_equal.
    apply list_filter_iff. intros y. rewrite not_elem_of_cons. tauto.
Qed.

(** The labels of the first frame come first. *)
Lemma unique_first l1 l2 :
  NoDup l1 -> unique (l1 ++ l2) = l1 ++ filter (fun y => y ∉ l1) (unique l2).
Proof. intros Hl1. by rewrite unique_app, unique_NoDup. Qed.




(** *** Rows under new labels *)

Lemma index_of_lookup k l i : index_of k l = Some i -> l !! i = Some k.
Proof.
  revert i. induction l as [|x l IH]; intros i; simpl; [done|].
  case_decide as Hx; [by intros [= <-]; subst|].
  destruct (index_of k l) as [j|]; simpl; [|done].
  intros [= <-]. by apply IH.
Qed.


Lemma index_of_absent k l : k ∉ l -> index_of k l = None.
Proof.
  induction l as [|x l IH]; simpl; [done|].
  intros [Hne Hl]%not_elem_of_cons.
  rewrite decide_False by done. by rewrite IH.
Qed.


Lemma reindex_row_absent (old new : list L) r i k :
  k ∉ old -> new !! i = Some k -> reindex_row old new r !! i = Some NaN.
Proof.
  intros Hk Hi. unfold reindex_row.
  rewrite list_lookup_fmap, Hi. simpl. by rewrite index_of_absent.
Qed.


(** *** Concatenation *)




(** Frames that all carry the labels of the first are stacked. *)
Lemma concat_same_labels d ds :
  Forall (fun d' => columns d' = columns d) ds ->
  concat (d :: ds)
  = Ok {| columns := columns d; values := mjoin (values <$> d :: ds) |}.
Proof.
  intros Hsame. unfold concat.
  assert (forallb (fun d' => bool_decide (columns d' = columns d)) ds = true)
    as ->.
  { apply forallb_forall. intros d' Hd'%list_elem_of_In.
    rewrite Forall_forall in Hsame. by apply bool_decide_eq_true_2, Hsame. }
  rewrite (for_each_all_Ok _ (d :: ds) (values <$> d :: ds)); [done|].
  apply Forall2_fmap_r, Forall_Forall2_diag. constructor.
  - unfold reindex. by rewrite decide_True.
  - eapply Forall_impl; [done|]. intros d' Hd'. simpl in Hd'.
    unfold reindex. by rewrite decide_True.
Qed.

End Frames.
End PandasFacts.

(** ** The conversion *)
Module ConvertFacts.
Import Pandas Convert ExnFacts PandasFacts.

(** *** Extensions and formats *)

Lemma mbind_ret_l {A B} (a : A) (k : A -> M B) : (mret a ≫= k) = k a.
Proof. unfold mbind, M_mbind, mret, M_mret, M_bind, ret. by destruct (k a). Qed.

(** A format that is none of the three leaves the round without an
    event and without a change to [output_files]. *)
Lemma export_format_other data file_id files format :
  format ∉ default_formats ->
  export_format data file_id files format = ret files.
Proof.
  unfold default_formats, export_format. intros Hf.
  repeat case_decide; try done; exfalso; apply Hf; subst; set_solver.
Qed.

Lemma export_formats_supported data file_id files formats :
  export_formats data file_id files formats
  = export_formats data file_id files
      (filter (fun format => format ∈ default_formats) formats).
Proof.
  revert files. induction formats as [|format formats IH]; intros files;
    [done|].
  destruct (decide (format ∈ default_formats)) as [Hin|Hout].
  - rewrite filter_cons_True by done. cbn [export_formats].
    unfold mbind, M_mbind, M_bind.
    destruct (export_format data file_id files format) as [tr [files'|e]];
      [|done].
    by rewrite IH.
  - rewrite filter_cons_False by done. cbn [export_formats].
    rewrite export_format_other by done.
    rewrite <- IH. unfold mbind, M_mbind, M_bind, ret.
    by destruct (export_formats _ _ _ _).
Qed.

Lemma extract_unsupported w file_path :
  ~ supported_extension file_path ->
  extract w file_path = raise (HTTPException 400 "Unsupported file format").
Proof.
  unfold supported_extension, extract, extension_of. intros Hext.
  case_decide as Hpdf.
  - exfalso. apply Hext. rewrite Hpdf. by left.
  - rewrite bool_decide_eq_false_2; [done|].
    intros Himg. apply Hext. by right.
Qed.

(** C5, as the code has it: a file whose extension is none of [.pdf],
    [.png], [.jpg], [.jpeg] is rejected with the 400 "Unsupported file
    format" error and no event at all; a requested output format that
    is none of [xlsx], [csv], [xml] is not rejected: the conversion
    runs as if that format had not been requested. *)
Theorem unsupported_requests (w : World) (file_path file_id : string)
    (output_formats : list string) :
  (~ supported_extension file_path ->
   convert_file w file_path file_id output_formats
   = ([], Raise (HTTPException 400 "Unsupported file format")))
  /\ convert_file w file_path file_id output_formats
     = convert_file w file_path file_id
         (filter (fun format => format ∈ default_formats) output_formats).
Proof.
  split.
  - intros Hext. unfold convert_file. by rewrite extract_unsupported.
  - unfold convert_file.
    destruct (extract w file_path) as [tr [data|e]]; [|done].
    unfold mbind, M_mbind, M_bind.
    by rewrite <- export_formats_supported.
Qed.

(** [upload_file] rejects the same extensions before it saves. *)
Lemma upload_unsupported content filename saved :
  Py.is_empty content = false -> ~ supported_extension filename ->
  upload_file content filename saved
  = ([], Raise (HTTPException 400 "Unsupported file format")).
Proof.
  unfold upload_file, supported_extension, extension_of. intros -> Hext.
  by rewrite bool_decide_eq_false_2.
Qed.

(** *** Images without text *)


(** OCR text that is empty once stripped yields the empty frame. *)
Lemma ocr_blank_text w file_path text :
  image_text w file_path = OcrText text -> Py.strip text = "" ->
  process_image_ocr w file_path = Ok {| columns := []; values := [] |}.
Proof. unfold process_image_ocr. by intros -> ->. Qed.

(** C1, on an image in which OCR finds no text: the conversion does not
    raise; it reports success with no header and no row. *)
Lemma blank_image_converts :
  convert_file Samples.sample_world "uploads/scan.png" "scan" ["csv"]
  = ([ OcrImage "uploads/scan.png";
       ToCsv {| columns := []; values := [] |} "converted/scan.csv" ],
     Ok {| status := "success";
           message := "File converted successfully";
           file_id := "scan";
           headers := [];
           rows := [];
           converted_files := [("csv", "/download/scan.csv")] |}).
Proof. by vm_compute. Qed.

(** *** PDFs *)

Lemma for_each_app {A B} (f : A -> result B) xs1 xs2 :
  for_each f (xs1 ++ xs2)
  = bind (for_each f xs1) (fun ys1 =>
    bind (for_each f xs2) (fun ys2 => Ok (ys1 ++ ys2))).
Proof.
  induction xs1 as [|x xs1 IH]; simpl.
  - by destruct (for_each f xs2).
  - destruct (f x); simpl; [|done]. rewrite IH.
    destruct (for_each f xs1); simpl; [|done].
    by destruct (for_each f xs2).
Qed.

Lemma table_frame_fits (table : RawTable) :
  table ≠ [] -> fits table -> table_frame table = Ok (frame_of table).
Proof.
  destruct table as [|header body]; [done|]. intros _ Hfits.
  unfold table_frame, frame_of, cells_of, labels, fits in *. simpl in *.
  destruct body as [|r body]; [done|].
  destruct Hfits as [|Hw]; [done|].
  unfold from_rows. rewrite <- !list_fmap_compose.
  rewrite length_fmap.
  assert (max_list (length ∘ (fun r0 : list (option string) => of_option <$> r0)
                    <$> r :: body) = length header) as ->.
  { rewrite <- Hw. f_equal. apply list_fmap_ext. intros ???. simpl.
    by rewrite length_fmap. }
  by rewrite Nat.eqb_refl.
Qed.


Lemma page_frames_fits (page : list RawTable) :
  Forall fits (filter (fun table : RawTable => table ≠ []) page) ->
  page_frames page
  = Ok (frame_of <$> filter (fun table : RawTable => table ≠ []) page).
Proof.
  unfold page_frames. intros Hfits. apply for_each_all_Ok.
  apply Forall2_fmap_r, Forall_Forall2_diag, Forall_forall.
  intros table Ht. apply table_frame_fits.
  - by apply list_elem_of_filter in Ht as [? _].
  - rewrite Forall_forall in Hfits. by apply Hfits.
Qed.

Lemma filter_join {A} (P : A -> Prop) `{!forall x, Decision (P x)}
    (ls : list (list A)) :
  filter P (mjoin ls) = mjoin (filter P <$> ls).
Proof.
  induction ls as [|l ls IH]; simpl; [done|]. by rewrite filter_app, IH.
Qed.

Lemma Forall_join_inv {A} (P : A -> Prop) (ls : list (list A)) :
  Forall P (mjoin ls) -> Forall (Forall P) ls.
Proof.
  induction ls as [|l ls IH]; simpl; [constructor|].
  intros [Hl Hls]%Forall_app. constructor; auto.
Qed.

Lemma join_fmap_fmap {A B} (f : A -> B) (ls : list (list A)) :
  mjoin ((fun l => f <$> l) <$> ls) = f <$> mjoin ls.
Proof.
  induction ls as [|l ls IH]; [done|].
  change (mjoin ((fun l => f <$> l) <$> l :: ls))
    with ((f <$> l) ++ mjoin ((fun l => f <$> l) <$> ls)).
  change (mjoin (l :: ls)) with (l ++ mjoin ls).
  by rewrite fmap_app, IH.
Qed.

(** The frames of a PDF whose tables fit: one per table that is not
    empty, in page order and then detection order. *)
Lemma extract_tables_fits w file_path pages :
  pdf_tables w file_path = Ok pages ->
  Forall fits (filter (fun table : RawTable => table ≠ []) (mjoin pages)) ->
  extract_tables_from_pdf w file_path
  = Ok (frame_of <$> filter (fun table : RawTable => table ≠ []) (mjoin pages)).
Proof.
  intros Hpdf Hfits. unfold extract_tables_from_pdf. rewrite Hpdf. simpl.
  rewrite filter_join in *. apply Forall_join_inv in Hfits.
  assert (for_each page_frames pages
          = Ok ((fun page => frame_of <$> page)
                <$> (filter (fun table : RawTable => table ≠ []) <$> pages)))
    as ->.
  { apply for_each_all_Ok. rewrite <- list_fmap_compose.
    apply Forall2_fmap_r, Forall_Forall2_diag.
    rewrite Forall_fmap in Hfits. eapply Forall_impl; [exact Hfits|].
    intros page Hpage. by apply page_frames_fits. }
  simpl. by rewrite join_fmap_fmap.
Qed.

(** A PDF on whose pages no table is detected. *)
Lemma pdf_without_tables w file_path file_id output_formats pages :
  extension_of file_path = ".pdf" ->
  pdf_tables w file_path = Ok pages -> mjoin pages = [] ->
  convert_file w file_path file_id output_formats
  = ([ExtractTables file_path],
     Raise (ConversionError "No tables found in PDF")).
Proof.
  intros Hext Hpdf Hnone. unfold convert_file, extract.
  rewrite decide_True by done.
  rewrite (extract_tables_fits w file_path pages Hpdf)
    by (rewrite Hnone; constructor).
  by rewrite Hnone.
Qed.





Lemma unsupported_requests_witness :
  convert_file Samples.sample_world "uploads/notes.txt" "notes" ["csv"]
  = ([], Raise (HTTPException 400 "Unsupported file format")).
Proof.
  refine (proj1 (unsupported_requests Samples.sample_world
                   "uploads/notes.txt" "notes" ["csv"]) _).
  unfold supported_extension. intros Hin.
  apply (bool_decide_pack _) in Hin. by vm_compute in Hin.
Defined.

(** C5 as stated fails: a request for a format that is none of the
    three is not rejected; the tables are extracted and the conversion
    reports success, with no file for that format. *)
Lemma unsupported_format_counterexample :
  ("docx" ∉ default_formats)
  /\ convert_file Samples.sample_world "uploads/report.pdf" "report"
       ["docx"]
     = ([ExtractTables "uploads/report.pdf"],
        Ok {| status := "success";
              message := "File converted successfully";
              file_id := "report";
              headers := [Val "a"; Val "b"];
              rows := [ [(Val "a", Text "1"); (Val "b", Text "2")];
                        [(Val "a", Text "4"); (Val "b", Text "3")] ];
              converted_files := [] |}).
Proof.
  split; [|by vm_compute].
  intros Hin. apply (bool_decide_pack _) in Hin. by vm_compute in Hin.
Qed.

End ConvertFacts.

(** ** More on the validator *)
Module ValidateExtras.
Import Validate ValidateFacts Report.

(** The rounds of the outer loop from row index [n] on. *)
Lemma enumerate_from_elem {A} (l : list A) n i x :
  (i, x) ∈ zip (seq n (length l)) l -> n <= i /\ l !! (i - n) = Some x.
Proof.
  revert n. induction l as [|y l IH]; intros n; simpl.
  - by intros ?%elem_of_nil.
  - intros [[= -> ->]|Hin]%elem_of_cons.
    + split; [lia|]. by rewrite Nat.sub_diag.
    + apply IH in Hin as [Hle Hl]. split; [lia|].
      by replace (i - n) with (S (i - S n)) by lia.
Qed.

Lemma enumerate_elem {A} (l : list A) i x :
  (i, x) ∈ enumerate l -> l !! i = Some x.
Proof.
  unfold enumerate. intros [_ Hl]%enumerate_from_elem.
  by rewrite Nat.sub_0_r in Hl.
Qed.

Lemma cell_findings_header c cell : cell_findings 0 c cell = [].
Proof. done. Qed.

(** Every finding points at a cell of the table below the header row,
    and is one of the findings of that cell. *)
Theorem findings_point_at_cells (data : list (list string)) (f : Finding) :
  f ∈ validate_table data ->
  row f ≠ 0
  /\ exists cell, cell_at data (row f) (column f) = Some cell
                  /\ f ∈ cell_findings (row f) (column f) cell.
Proof.
  rewrite validate_table_unfold.
  intros (fs & Hf & Hfs)%list_elem_of_join.
  apply list_elem_of_fmap in Hfs as ([r cells] & -> & Hr).
  apply enumerate_elem in Hr. unfold row_findings in Hf.
  apply list_elem_of_join in Hf as (gs & Hf & Hgs).
  apply list_elem_of_fmap in Hgs as ([c cell] & -> & Hc).
  apply enumerate_elem in Hc.
  destruct (cell_findings_position _ _ _ _ Hf) as [-> ->].
  split.
  - intros H0. rewrite H0 in Hf. by apply elem_of_nil in Hf.
  - exists cell. split; [|done]. unfold cell_at. by rewrite Hr.
Qed.

Lemma findings_point_at_cells_witness :
  let data := [["h"]; ["a"; "b"; "15/01/2024"]] in
  row (date_finding 1 2) ≠ 0
  /\ exists cell,
       cell_at data (row (date_finding 1 2)) (column (date_finding 1 2))
       = Some cell
       /\ date_finding 1 2
          ∈ cell_findings (row (date_finding 1 2))
              (column (date_finding 1 2)) cell.
Proof.
  apply (findings_point_at_cells [["h"]; ["a"; "b"; "15/01/2024"]]).
  refine (bool_decide_unpack _ _). by vm_compute.
Defined.

Lemma blank_no_digraph cell :
  Py.is_empty (Py.strip cell) = true ->
  existsb (fun char => Py.contains char cell) ocr_digraphs = false.
Proof.
  intros Hb. apply whitespace_no_digraph, strip_empty.
  by destruct (Py.strip cell).
Qed.

(** No cell gets more than two findings. *)
Theorem at_most_two_findings (data : list (list string)) (r c : nat) :
  length (findings_at r c (validate_table data)) <= 2.
Proof.
  rewrite findings_at_validate.
  destruct (cell_at data r c) as [cell|]; simpl; [|lia].
  unfold cell_findings. destruct (r =? 0); [simpl; lia|].
  unfold check_mandatory, check_numeric, check_date, check_ocr.
  destruct (Py.is_empty (Py.strip cell)) eqn:Hblank.
  - rewrite (blank_no_digraph _ Hblank).
    do 5 (destruct c as [|c]; [simpl; repeat case_match; simpl; lia|]).
    simpl. lia.
  - do 5 (destruct c as [|c]; [simpl; repeat case_match; simpl; lia|]).
    simpl. case_match; simpl; lia.
Qed.

(** The bound is met: a date cell that is no date and holds a digraph. *)
Example two_findings_example :
  findings_at 1 2 (validate_table [["h"]; ["a"; "b"; "2O0l-01-01"]])
  = [date_finding 1 2; ocr_finding 1 2].
Proof. by vm_compute. Qed.

(** *** The rows of a table, one after the other *)

Local Abbreviation blocks n d :=
  (mjoin ((fun '(r, cells) => row_findings r cells)
          <$> zip (seq n (length d)) d)).

Lemma row_findings_header (h : list string) : row_findings 0 h = [].
Proof.
  unfold row_findings. induction (enumerate h) as [|[c cell] l IH]; done.
Qed.

Lemma validate_table_cons h (d : list (list string)) :
  validate_table (h :: d) = blocks 1 d.
Proof.
  rewrite validate_table_unfold. unfold enumerate.
  change (zip (seq 0 (length (h :: d))) (h :: d))
    with ((0, h) :: zip (seq 1 (length d)) d).
  rewrite fmap_cons.
  change (mjoin (?x :: ?l)) with (x ++ mjoin l).
  by rewrite row_findings_header.
Qed.

(** The header row is not looked at: its content does not matter. *)
Theorem header_row_ignored (h h' : list string) (d : list (list string)) :
  validate_table (h :: d) = validate_table (h' :: d).
Proof. by rewrite !validate_table_cons. Qed.

Lemma blocks_app n (d1 d2 : list (list string)) :
  blocks n (d1 ++ d2) = blocks n d1 ++ blocks (n + length d1) d2.
Proof.
  revert n. induction d1 as [|cells d1 IH]; intros n.
  - by rewrite Nat.add_0_r.
  - change (blocks n ((cells :: d1) ++ d2))
      with (row_findings n cells ++ blocks (S n) (d1 ++ d2)).
    change (blocks n (cells :: d1))
      with (row_findings n cells ++ blocks (S n) d1).
    rewrite IH, <- app_assoc. do 2 f_equal.
    by replace (n + length (cells :: d1)) with (S n + length d1)
      by (simpl; lia).
Qed.

Lemma cell_findings_shift r k c cell :
  r ≠ 0 -> cell_findings (r + k) c cell = shift_row k <$> cell_findings r c cell.
Proof.
  intros Hr. destruct r as [|r]; [done|].
  unfold cell_findings, check_mandatory, check_numeric, check_date, check_ocr.
  simpl. rewrite !fmap_app. repeat case_match; done.
Qed.

Lemma row_findings_shift r k cells :
  r ≠ 0 -> row_findings (r + k) cells = shift_row k <$> row_findings r cells.
Proof.
  intros Hr. unfold row_findings.
  induction (enumerate cells) as [|[c cell] l IH]; [done|].
  rewrite !fmap_cons.
  change (mjoin (?x :: ?l)) with (x ++ mjoin l).
  by rewrite fmap_app, IH, cell_findings_shift.
Qed.

Lemma blocks_shift n k (d : list (list string)) :
  n ≠ 0 -> blocks (n + k) d = shift_row k <$> blocks n d.
Proof.
  revert n. induction d as [|cells d IH]; intros n Hn; [done|].
  change (blocks (n + k) (cells :: d))
    with (row_findings (n + k) cells ++ blocks (S n + k) d).
  change (blocks n (cells :: d))
    with (row_findings n cells ++ blocks (S n) d).
  by rewrite fmap_app, IH, row_findings_shift.
Qed.

(** A table may be validated in two parts, each under the header row:
    the findings of the whole are those of the first part followed by
    those of the second, moved down by the rows of the first. *)
Theorem validate_in_parts (h : list string) (d1 d2 : list (list string)) :
  validate_table (h :: d1 ++ d2)
  = validate_table (h :: d1)
    ++ (shift_row (length d1) <$> validate_table (h :: d2)).
Proof.
  rewrite !validate_table_cons, blocks_app. f_equal.
  by rewrite <- blocks_shift.
Qed.

(** *** Order *)

Lemma sorted_same_cell (l : list Finding) r c :
  Forall (fun f => row f = r /\ column f = c) l ->
  StronglySorted row_major l.
Proof.
  induction 1 as [|f l [Hr Hc] Hl IH]; constructor; [done|].
  eapply Forall_impl; [exact Hl|].
  intros g [Hr' Hc']. right. lia.
Qed.

Lemma cells_from_columns r n (cells : list string) f :
  f ∈ mjoin ((fun '(c, cell) => cell_findings r c cell)
             <$> zip (seq n (length cells)) cells) ->
  row f = r /\ n <= column f.
Proof.
  intros (fs & Hf & Hfs)%list_elem_of_join.
  apply list_elem_of_fmap in Hfs as ([c cell] & -> & Hc).
  apply enumerate_from_elem in Hc as [Hle _].
  by destruct (cell_findings_position _ _ _ _ Hf) as [-> ->].
Qed.

Lemma sorted_cells_from r n (cells : list string) :
  StronglySorted row_major
    (mjoin ((fun '(c, cell) => cell_findings r c cell)
            <$> zip (seq n (length cells)) cells)).
Proof.
  revert n. induction cells as [|cell cells IH]; intros n; [constructor|].
  change (mjoin ((fun '(c, cell) => cell_findings r c cell)
                 <$> zip (seq n (length (cell :: cells))) (cell :: cells)))
    with (cell_findings r n cell
          ++ mjoin ((fun '(c, cell) => cell_findings r c cell)
                    <$> zip (seq (S n) (length cells)) cells)).
  apply StronglySorted_app_2; [|..|apply IH].
  - intros f g Hf Hg. apply cell_findings_position in Hf as [Hr Hc].
    apply cells_from_columns in Hg as [Hr' Hc']. right. lia.
  - apply (sorted_same_cell _ r n), Forall_forall.
    intros f Hf. by apply cell_findings_position in Hf.
Qed.

Lemma blocks_rows n (d : list (list string)) f :
  f ∈ blocks n d -> n <= row f.
Proof.
  intros (fs & Hf & Hfs)%list_elem_of_join.
  apply list_elem_of_fmap in Hfs as ([r cells] & -> & Hr).
  apply enumerate_from_elem in Hr as [Hle _].
  apply row_findings_row in Hf. lia.
Qed.

Lemma sorted_blocks n (d : list (list string)) :
  StronglySorted row_major (blocks n d).
Proof.
  revert n. induction d as [|cells d IH]; intros n; [constructor|].
  change (blocks n (cells :: d))
    with (row_findings n cells ++ blocks (S n) d).
  apply StronglySorted_app_2; [|apply sorted_cells_from|apply IH].
  intros f g Hf%row_findings_row Hg%blocks_rows. left. lia.
Qed.

(** The findings come in row-major order of the cells they point at. *)
Theorem findings_row_major (data : list (list string)) :
  StronglySorted row_major (validate_table data).
Proof. rewrite validate_table_unfold. apply sorted_blocks. Qed.

(** *** Mandatory columns *)

(** At the first two columns of a row below the header, a blank cell
    gets the mandatory finding and nothing else; any other cell gets the
    OCR finding if it holds a digraph, and nothing otherwise. *)
Theorem mandatory_rule (data : list (list string)) (r c : nat) (cell : string) :
  r ≠ 0 -> c < 2 -> cell_at data r c = Some cell ->
  findings_at r c (validate_table data)
  = if Py.is_empty (Py.strip cell) then [mandatory_finding r c]
    else if existsb (fun char => Py.contains char cell) ocr_digraphs
         then [ocr_finding r c] else [].
Proof.
  intros Hr Hc Hcell. rewrite findings_at_validate, Hcell. simpl.
  rewrite cell_findings_nonheader by done.
  unfold rule_findings, check_mandatory, check_numeric, check_date, check_ocr.
  destruct (Py.is_empty (Py.strip cell)) eqn:Hblank.
  - rewrite (blank_no_digraph _ Hblank).
    destruct c as [|[|c]]; [done|done|lia].
  - destruct c as [|[|c]]; [|  |lia]; simpl; by case_match.
Qed.

Lemma mandatory_rule_witness :
  findings_at 1 0 (validate_table [["h"]; ["  "; "b"]])
  = [mandatory_finding 1 0].
Proof. apply (mandatory_rule _ 1 0 "  "); [lia|lia|reflexivity]. Defined.

Lemma date_rule_iso_witness :
  filter (fun f => severity f = "warning")
    (findings_at 1 2 (validate_table [["h"]; ["a"; "b"; "2023-02-29"]]))
  = [date_finding 1 2].
Proof.
  apply (date_rule_iso _ 1 "2023-02-29"); [lia|reflexivity|reflexivity].
Defined.

End ValidateExtras.

(** ** Dicts *)
Module DictFacts.
Section Dict.
Context {K V : Type} `{EqDecision K}.
Implicit Types (d : list (K * V)).

Lemma get_set_eq k v d dflt : Dict.get k (Dict.set k v d) dflt = v.
Proof.
  induction d as [|[k' v'] d IH]; simpl;
    repeat (case_decide; simpl); congruence.
Qed.

Lemma get_set_ne k k' v d dflt :
  k ≠ k' -> Dict.get k' (Dict.set k v d) dflt = Dict.get k' d dflt.
Proof.
  intros Hne. induction d as [|[k0 v0] d IH]; simpl;
    repeat (case_decide; simpl); congruence.
Qed.

(** The keys after an assignment: unchanged for a key that is there,
    with the new key at the end otherwise. *)
Lemma keys_set k v d :
  (Dict.set k v d).*1 = if decide (k ∈ d.*1) then d.*1 else d.*1 ++ [k].
Proof.
  induction d as [|[k' v'] d IH].
  - destruct (decide (k ∈ ([] : list (K * V)).*1)) as [Hin|]; [|done].
    by apply elem_of_nil in Hin.
  - cbn [Dict.set]. destruct (decide (k' = k)) as [->|Hk].
    + rewrite decide_True; [done|]. rewrite fmap_cons. by left.
    + rewrite !fmap_cons, IH. cbn [fst].
      destruct (decide (k ∈ d.*1)) as [Hin|Hout].
      * rewrite decide_True; [done|]. by right.
      * rewrite decide_False; [done|].
        intros [?|?]%elem_of_cons; congruence.
Qed.

End Dict.
End DictFacts.

(** ** More on the exporters *)
Module ExporterExtras.
Import Pandas Exporter ExnFacts ExporterFacts DictFacts Views.

Section Exporters.
Context {Any PyFloat : Type}.
Variable str : Any -> string.
Variables to_excel to_csv : DataFrame string Any -> result string.

Local Abbreviation TableRow := (TableRow Any PyFloat).
Local Abbreviation TableData := (TableData Any PyFloat).
Implicit Types (row : TableRow) (data : TableData) (hs : list string).

(** After the comprehension every header visited reads its own cell's
    value, also a header that was visited more than once. *)
Lemma fold_dict_step_get row hs d0 d :
  fold_left (dict_step row) hs (Ok d0) = Ok d ->
  forall h, Dict.get h d NaN
            = if decide (h ∈ hs) then cell_value row h
              else Dict.get h d0 NaN.
Proof.
  revert d0. induction hs as [|k hs IH]; intros d0; cbn [fold_left].
  - intros [= <-] h.
    destruct (decide (h ∈ [])) as [Hin|]; [by apply elem_of_nil in Hin|done].
  - change (dict_step row (Ok d0) k)
      with (bind (getitem row k)
              (fun cell => Ok (Dict.set k (Val (value cell)) d0))).
    unfold getitem. destruct (cells row !! k) as [cell|] eqn:Hk; cbn [bind].
    + intros Hfold h. rewrite (IH _ Hfold h).
      destruct (decide (h ∈ hs)) as [Hin|Hout].
      * rewrite decide_True; [done|]. by right.
      * destruct (decide (k = h)) as [->|Hne].
        -- rewrite decide_True by by left. rewrite get_set_eq.
           unfold cell_value. by rewrite Hk.
        -- rewrite get_set_ne by done. rewrite decide_False; [done|].
           intros [?|?]%elem_of_cons; congruence.
    + by rewrite fold_dict_step_Raise.
Qed.

Lemma row_dict_values_at row hs d :
  row_dict hs row = Ok d ->
  (fun k => Dict.get k d NaN) <$> hs = cell_value row <$> hs.
Proof.
  intros Hd. apply Forall_fmap_ext_1, Forall_forall. intros h Hh.
  rewrite (fold_dict_step_get row hs [] d Hd h). by rewrite decide_True.
Qed.

(** The frame the tabular exporters hand to pandas: the headers as
    labels, one row per table row in order, and in each row the value
    under each header in header order, for repeated headers too. *)
Theorem to_frame_view data :
  complete data -> to_frame data = Ok (frame_view data).
Proof.
  intros Hc. unfold to_frame, frame_view.
  assert (exists ds,
            for_each (row_dict (headers data)) (rows data) = Ok ds
            /\ (fun d => (fun k => Dict.get k d NaN) <$> headers data) <$> ds
               = (fun row => cell_value row <$> headers data) <$> rows data)
    as (ds & -> & Hds).
  { unfold complete in Hc.
    induction Hc as [|row rs Hrow _ (ds & IH & Hds)]; simpl.
    - by exists [].
    - destruct (row_dict_present row _ Hrow) as [d Hd]. rewrite Hd. simpl.
      rewrite IH. exists (d :: ds). split; [done|].
      rewrite !fmap_cons, Hds. f_equal. by apply row_dict_values_at. }
  simpl. unfold from_dicts. by rewrite Hds.
Qed.

(** *** Cells that are under no header *)

Lemma dict_step_agree row1 row2 acc h :
  value <$> cells row1 !! h = value <$> cells row2 !! h ->
  dict_step row1 acc h = dict_step row2 acc h.
Proof.
  intros Hv. unfold dict_step, getitem.
  destruct acc as [d|e]; simpl; [|done].
  destruct (cells row1 !! h), (cells row2 !! h); simpl in *; congruence.
Qed.

Lemma row_dict_agree row1 row2 hs :
  Forall (fun h => value <$> cells row1 !! h = value <$> cells row2 !! h) hs ->
  row_dict hs row1 = row_dict hs row2.
Proof.
  intros Hhs. unfold row_dict.
  generalize (Ok [] : result (list (string * obj Any))).
  induction Hhs as [|h hs Hh _ IH]; intros acc; simpl; [done|].
  by rewrite (dict_step_agree _ _ _ _ Hh), IH.
Qed.

Lemma tallymessage_agree row1 row2 hs :
  Forall (fun h => value <$> cells row1 !! h = value <$> cells row2 !! h) hs ->
  tallymessage str hs row1 = tallymessage str hs row2.
Proof.
  intros Hhs. unfold tallymessage.
  rewrite (for_each_ext (leaf str row1) (leaf str row2)); [done|].
  intros h Hh. rewrite Forall_forall in Hhs. specialize (Hhs _ Hh).
  unfold leaf, getitem.
  destruct (cells row1 !! h), (cells row2 !! h); simpl in *; congruence.
Qed.

(** The exporters read a row under the declared headers only: two
    tables with the same headers and the same values under them are
    exported alike, whatever other cells their rows carry. *)
Theorem export_reads_headers_only data1 data2 :
  agree_on_headers data1 data2 ->
  save_as_xlsx to_excel data1 = save_as_xlsx to_excel data2
  /\ save_as_csv to_csv data1 = save_as_csv to_csv data2
  /\ save_as_xml str data1 = save_as_xml str data2.
Proof.
  intros [Hh Hr].
  assert (to_frame data1 = to_frame data2) as Hframe.
  { unfold to_frame. rewrite <- Hh.
    rewrite (for_each_Forall2 (row_dict (headers data1))
               (row_dict (headers data1)) (rows data1) (rows data2)); [done|].
    eapply Forall2_impl; [exact Hr|]. intros ??. apply row_dict_agree. }
  unfold save_as_xlsx, save_as_csv, save_as_xml, save_as_xml_root.
  rewrite Hframe, <- Hh.
  rewrite (for_each_Forall2 (tallymessage str (headers data1))
             (tallymessage str (headers data1)) (rows data1) (rows data2));
    [done|].
  eapply Forall2_impl; [exact Hr|]. intros ??. apply tallymessage_agree.
Qed.

End Exporters.

Import Samples.

Lemma to_frame_view_witness : to_frame ledger = Ok (frame_view ledger).
Proof. apply (to_frame_view ledger). apply ExportExamples.ledger_complete. Defined.

(** A table whose two headers are the same: both columns of the frame
    hold the one cell of the row. *)
Example repeated_header_frame :
  to_frame {| headers := ["Amount"; "Amount"];
              rows := [ {| cells := {[ "Amount" := cell_of "20" ]} |} ] |}
  = Ok {| columns := ["Amount"; "Amount"];
          values := [ [Val "20"; Val "20"] ] |}.
Proof. by vm_compute. Qed.

Lemma export_reads_headers_only_witness :
  let noted : TableData string nat :=
    {| headers := ["Date"];
       rows := [ {| cells := {[ "Date" := cell_of "2024-01-15";
                                "Note" := cell_of "paid" ]} |} ] |} in
  let bare : TableData string nat :=
    {| headers := ["Date"];
       rows := [ {| cells := {[ "Date" := cell_of "2024-01-15" ]} |} ] |} in
  save_as_xlsx plain_lines noted = save_as_xlsx plain_lines bare
  /\ save_as_csv plain_lines noted = save_as_csv plain_lines bare
  /\ save_as_xml id noted = save_as_xml id bare.
Proof.
  apply (export_reads_headers_only id plain_lines plain_lines).
  split; [reflexivity|].
  repeat constructor.
Defined.

End ExporterExtras.

(** ** The conversion: failures, shapes and exports *)
Module ConvertExtras.
Import Pandas Convert ExnFacts PandasFacts ConvertFacts DictFacts Lines.

(** *** Failures *)







(** *** PDFs in which every detected table is empty *)

(** A PDF with no table, or with empty tables only, ends the
    conversion with "No tables found in PDF" right after extraction. *)
Theorem pdf_with_empty_tables_only (w : World) (file_path file_id : string)
    (output_formats : list string) (pages : list (list RawTable)) :
  extension_of file_path = ".pdf" ->
  pdf_tables w file_path = Ok pages ->
  Forall (Forall (fun table : RawTable => table = [])) pages ->
  convert_file w file_path file_id output_formats
  = ([ExtractTables file_path],
     Raise (ConversionError "No tables found in PDF")).
Proof.
  intros Hext Hpdf Hempty.
  assert (filter (fun table : RawTable => table ≠ []) (mjoin pages) = [])
    as Hnone.
  { apply ValidateFacts.filter_none, Forall_join.
    eapply Forall_impl; [exact Hempty|]. intros page Hpage.
    eapply Forall_impl; [exact Hpage|]. by intros table -> ?. }
  unfold convert_file, extract. rewrite decide_True by done.
  rewrite (extract_tables_fits w file_path pages Hpdf)
    by (rewrite Hnone; constructor).
  by rewrite Hnone.
Qed.

Lemma pdf_with_empty_tables_only_witness :
  let w := {| pdf_tables := fun _ => Ok [ [ [] ]; []; [ []; [] ] ];
              image_text := fun _ => ImreadNone |} in
  convert_file w "uploads/blank.pdf" "blank" default_formats
  = ([ExtractTables "uploads/blank.pdf"],
     Raise (ConversionError "No tables found in PDF")).
Proof.
  apply (pdf_with_empty_tables_only _ "uploads/blank.pdf" "blank"
           default_formats [ [ [] ]; []; [ []; [] ] ]).
  - reflexivity.
  - reflexivity.
  - repeat constructor.
Defined.

(** *** Images *)



(** *** The shape of what is extracted *)

Lemma pad_length {A} (width : nat) (r : list (obj A)) :
  length r <= width -> length (pad width r) = width.
Proof. unfold pad. rewrite length_app, length_replicate. lia. Qed.

Lemma from_rows_rectangular (data : list (list (obj string)))
    (cols : list (obj string)) (d : Frame) :
  from_rows data cols = Ok d -> rectangular d.
Proof.
  unfold from_rows, rectangular. destruct data as [|r data].
  - intros [= <-]. constructor.
  - cbv beta iota zeta. generalize (r :: data). clear r data. intros data.
    destruct (Nat.eqb_spec (max_list (length <$> data)) (length cols))
      as [Hw|]; [|done].
    intros [= <-]. cbn [columns values]. rewrite Forall_fmap.
    apply Forall_forall. intros r' Hr'. cbn beta. rewrite Hw.
    rewrite <- Hw. apply pad_length. apply max_list_elem_of_le.
    by apply list_elem_of_fmap_2.
Qed.

Lemma reindex_rectangular (new : list (obj string)) (d : Frame) rs :
  rectangular d -> reindex new d = Ok rs ->
  Forall (fun r => length r = length new) rs.
Proof.
  unfold reindex, rectangular. intros Hd.
  destruct (decide (columns d = new)) as [<-|_].
  - by intros [= <-].
  - destruct (has_duplicates (columns d)); [done|]. intros [= <-].
    rewrite Forall_fmap. apply Forall_forall. intros r _. cbn.
    unfold reindex_row. by rewrite length_fmap.
Qed.

Lemma reindex_all_rectangular (new : list (obj string))
    (frames : list Frame) rs :
  Forall rectangular frames -> for_each (reindex new) frames = Ok rs ->
  Forall (Forall (fun r => length r = length new)) rs.
Proof.
  intros Hrect Hrs. apply for_each_Ok in Hrs.
  induction Hrs as [|d r frames rs Hd _ IH]; [constructor|].
  apply Forall_cons in Hrect as [Hd0 Hds].
  constructor; [by eapply reindex_rectangular|by apply IH].
Qed.

Lemma concat_rectangular (frames : list Frame) (d : Frame) :
  Forall rectangular frames -> concat frames = Ok d -> rectangular d.
Proof.
  intros Hrect. unfold concat. destruct frames as [|d0 ds]; [done|].
  set (cols := if forallb _ ds then _ else _).
  destruct (for_each (reindex cols) (d0 :: ds)) as [rs|e] eqn:Hrs; [|done].
  cbn [bind]. intros [= <-]. unfold rectangular. cbn [columns values].
  apply Forall_join. by eapply reindex_all_rectangular.
Qed.

Lemma table_frames_rectangular (tables : list RawTable) frames :
  for_each table_frame tables = Ok frames -> Forall rectangular frames.
Proof.
  intros Hf. apply for_each_Ok in Hf.
  induction Hf as [|table d tables frames Hd _ IH]; constructor; [|done].
  destruct table as [|header body]; [done|].
  by eapply from_rows_rectangular.
Qed.

Lemma pdf_frames_rectangular w file_path frames :
  extract_tables_from_pdf w file_path = Ok frames ->
  Forall rectangular frames.
Proof.
  unfold extract_tables_from_pdf.
  destruct (pdf_tables w file_path) as [pages|e]; [|done]. cbn [bind].
  destruct (for_each page_frames pages) as [per_page|e] eqn:Hp; [|done].
  cbn [bind reraise]. intros [= <-]. apply Forall_join.
  apply for_each_Ok in Hp.
  induction Hp as [|page fs pages per_page Hpage _ IH]; constructor;
    [|done].
  by eapply table_frames_rectangular.
Qed.

Lemma image_frame_rectangular w file_path d :
  process_image_ocr w file_path = Ok d -> rectangular d.
Proof.
  unfold process_image_ocr.
  destruct (image_text w file_path) as [| |text]; [done|done|].
  destruct (Py.split_char "010" (Py.strip text)) as [|l ls]; [done|].
  destruct (from_rows _ _) as [d'|e] eqn:Hd; [|done].
  cbn [reraise]. intros [= <-]. by eapply from_rows_rectangular.
Qed.

(** Whatever the extraction yields, from a PDF or from an image, is a
    rectangular frame: every row has one value per label. *)
Theorem extract_rectangular (w : World) (file_path : string)
    (tr : list event) (data : Frame) :
  extract w file_path = (tr, Ok data) -> rectangular data.
Proof.
  unfold extract. case_decide as Hpdf.
  - unfold mbind, M_mbind, M_bind, tell, lift.
    destruct (extract_tables_from_pdf w file_path) as [frames|e] eqn:Hf;
      [|done].
    destruct frames as [|d ds]; [done|].
    destruct (concat (d :: ds)) as [d'|e] eqn:Hc; [|done].
    intros [= _ <-]. eapply concat_rectangular; [|exact Hc].
    by eapply pdf_frames_rectangular.
  - case_bool_decide; [|done].
    unfold mbind, M_mbind, M_bind, tell, lift.
    destruct (process_image_ocr w file_path) as [d|e] eqn:Hd; [|done].
    intros [= _ <-]. by eapply image_frame_rectangular.
Qed.


Lemma extract_rectangular_witness :
  rectangular {| columns := [Val "a"; Val "b"];
                 values := [ [Val "1"; Val "2"]; [Val "4"; Val "3"] ] |}.
Proof.
  apply (extract_rectangular Samples.sample_world "uploads/ledger.pdf"
           [ExtractTables "uploads/ledger.pdf"]).
  reflexivity.
Defined.

(** *** Exports written and listed *)

Lemma set_listed (P : string -> string) (ks : list string) (f : string) :
  Dict.set f (P f) ((fun k => (k, P k)) <$> ks)
  = (fun k => (k, P k)) <$> add_key ks f.
Proof.
  unfold add_key. induction ks as [|k ks IH].
  - rewrite decide_False by apply not_elem_of_nil. done.
  - rewrite fmap_cons. cbn [Dict.set].
    destruct (decide (k = f)) as [->|Hk].
    + rewrite decide_True by (by left). done.
    + rewrite IH. destruct (decide (f ∈ ks)) as [Hin|Hout].
      * rewrite decide_True by (by right). done.
      * rewrite decide_False; [done|].
        intros [?|?]%elem_of_cons; congruence.
Qed.

Lemma export_format_supported (data : Frame) (file_id : string)
    (ks : list string) (f : string) :
  f ∈ default_formats ->
  export_format data file_id ((fun k => (k, output_path file_id k)) <$> ks) f
  = ([write_event data file_id f],
     Ok ((fun k => (k, output_path file_id k)) <$> add_key ks f)).
Proof.
  intros Hf. rewrite <- set_listed.
  unfold export_format, write_event, create_tally_xml, output_path.
  unfold default_formats in Hf.
  destruct (decide (f = "xlsx")) as [->|Hxlsx]; [done|].
  destruct (decide (f = "csv")) as [->|Hcsv]; [done|].
  destruct (decide (f = "xml")) as [->|Hxml]; [done|].
  exfalso. repeat (apply elem_of_cons in Hf as [?|Hf]; [done|]).
  by apply elem_of_nil in Hf.
Qed.

Lemma export_formats_listed (data : Frame) (file_id : string)
    (fs ks : list string) :
  Forall (fun f => f ∈ default_formats) fs ->
  export_formats data file_id ((fun k => (k, output_path file_id k)) <$> ks) fs
  = (write_event data file_id <$> fs,
     Ok ((fun k => (k, output_path file_id k)) <$> fold_left add_key fs ks)).
Proof.
  intros Hfs. revert ks.
  induction Hfs as [|f fs Hf _ IH]; intros ks; [done|].
  cbn [export_formats fold_left]. rewrite export_format_supported by done.
  unfold mbind, M_mbind, M_bind. by rewrite IH.
Qed.

Lemma add_keys_unique (fs ks : list string) :
  NoDup ks -> fold_left add_key fs ks = unique (ks ++ fs).
Proof.
  revert ks. induction fs as [|f fs IH]; intros ks Hks; cbn [fold_left].
  - by rewrite app_nil_r, unique_NoDup.
  - unfold add_key at 2. destruct (decide (f ∈ ks)) as [Hin|Hout].
    + rewrite IH by done. rewrite !unique_first by done. f_equal.
      cbn [unique]. rewrite filter_cons_False by tauto.
      rewrite list_filter_filter. apply list_filter_iff.
      intros y. split; [|by intros [? _]]. intros Hy. split; [done|].
      by intros ->.
    + rewrite IH.
      * by rewrite <- app_assoc.
      * apply NoDup_app. split; [done|]. split; [|apply NoDup_singleton].
        intros y Hy ->%list_elem_of_singleton. done.
Qed.



End ConvertExtras.

(** ** Paths: separators, extensions, base names *)
Module PathFacts.
Import Convert Lines.

Local Abbreviation has c s := (Py.contains (String c EmptyString) s).

Lemma has_cons c d s : has c (String d s) = Ascii.eqb c d || has c s.
Proof. cbn [Py.contains Py.startswith]. by rewrite andb_true_r. Qed.

Lemma has_app c a b : has c (a +:+ b) = has c a || has c b.
Proof.
  induction a as [|d a IH].
  - by destruct b.
  - change (String d a +:+ b) with (String d (a +:+ b)).
    by rewrite !has_cons, IH, orb_assoc.
Qed.

Lemma has_drop c n s : has c s = false -> has c (Py.drop_str n s) = false.
Proof.
  revert s. induction n as [|n IH]; intros [|d s]; try done.
  rewrite has_cons. intros [_ Hs]%orb_false_elim. by apply IH.
Qed.

Lemma take_drop_str n s : Py.take_str n s +:+ Py.drop_str n s = s.
Proof.
  revert s. induction n as [|n IH]; intros [|d s]; try done.
  cbn [Py.take_str Py.drop_str].
  change (String d ?a +:+ ?b) with (String d (a +:+ b)). by rewrite IH.
Qed.

Lemma drop_str_app a b : Py.drop_str (String.length a) (a +:+ b) = b.
Proof. induction a as [|d a IH]; [by destruct b|done]. Qed.

Lemma take_str_app a b : Py.take_str (String.length a) (a +:+ b) = a.
Proof.
  induction a as [|d a IH]; [by destruct b|].
  change (String d a +:+ b) with (String d (a +:+ b)).
  cbn [String.length Py.take_str]. by rewrite IH.
Qed.

Lemma rfind_go_app c a b i last :
  Py.rfind_go c (a +:+ b) i last
  = Py.rfind_go c b (i + String.length a) (Py.rfind_go c a i last).
Proof.
  revert i last. induction a as [|d a IH]; intros i last.
  - cbn. by rewrite Nat.add_0_r.
  - change (String d a +:+ b) with (String d (a +:+ b)).
    cbn [Py.rfind_go String.length]. rewrite IH. f_equal. lia.
Qed.

Lemma rfind_go_absent c s i last :
  has c s = false -> Py.rfind_go c s i last = last.
Proof.
  revert i last. induction s as [|d s IH]; intros i last; [done|].
  rewrite has_cons. intros [Hd Hs]%orb_false_elim. cbn [Py.rfind_go].
  rewrite IH by done. rewrite Ascii.eqb_sym in Hd. by rewrite Hd.
Qed.

(** Where [rfind_go] ends: the last occurrence, or what it had. *)
Lemma rfind_go_spec c s i last :
  (has c s = false /\ Py.rfind_go c s i last = last)
  \/ exists k rest, Py.rfind_go c s i last = Some (i + k)
                    /\ Py.drop_str k s = String c rest
                    /\ has c rest = false.
Proof.
  revert i last. induction s as [|d s IH]; intros i last.
  - by left.
  - cbn [Py.rfind_go].
    destruct (IH (S i) (if Ascii.eqb d c then Some i else last))
      as [[Habs Hr]|(k & rest & Hr & Hd & Hrest)].
    + destruct (Ascii.eqb_spec d c) as [->|Hne].
      * right. exists 0, s. by rewrite Hr, Nat.add_0_r.
      * left. rewrite has_cons, Habs, Hr. split; [|done].
        rewrite orb_false_r. apply Ascii.eqb_neq. congruence.
    + right. exists (S k), rest. rewrite Hr. split; [f_equal; lia|done].
Qed.

Lemma drop_str_add a b s :
  Py.drop_str (a + b) s = Py.drop_str b (Py.drop_str a s).
Proof.
  revert s. induction a as [|a IH]; intros s; [done|].
  destruct s as [|d s]; [by destruct b|]. apply IH.
Qed.

Lemma string_app_nil_r (s : string) : s +:+ "" = s.
Proof.
  induction s as [|d s IH]; [done|].
  change (String d s +:+ "") with (String d (s +:+ "")). by rewrite IH.
Qed.

(** The extension [splitext] returns is empty, or a dot and then
    neither a dot nor a separator. *)
Lemma splitext_ext_shape p :
  snd (Py.splitext p) = ""
  \/ exists rest, snd (Py.splitext p) = String "." rest
                  /\ has "."%char rest = false /\ has "/"%char rest = false.
Proof.
  unfold Py.splitext, Py.rfind.
  destruct (rfind_go_spec "." p 0 None)
    as [[_ ->]|(k & rest & -> & Hd & Hrest)]; [by left|].
  cbn [Nat.add].
  destruct (_ && _) eqn:Hif; [|by left]. right. exists rest.
  cbn [snd]. split; [done|]. split; [done|].
  apply andb_prop in Hif as [Hle _]. apply Nat.leb_le in Hle.
  assert (has "/"%char (Py.drop_str k p) = false) as Hs.
  { destruct (rfind_go_spec "/" p 0 None)
      as [[Habs _]|(j & rest' & Hj & Hd' & Hrest')].
    - by apply has_drop.
    - rewrite Hj in Hle. cbn [Nat.add] in Hle.
      replace k with (j + (1 + (k - S j))) by lia.
      rewrite drop_str_add, Hd'. cbn [Nat.add Py.drop_str].
      by apply has_drop. }
  rewrite Hd, has_cons in Hs. by apply orb_false_elim in Hs as [_ ?].
Qed.

Lemma startswith_slash s :
  has "/"%char s = false -> Py.startswith "/" s = false.
Proof.
  destruct s as [|d s]; [done|]. rewrite has_cons.
  intros [Hd _]%orb_false_elim. cbn [Py.startswith]. by rewrite Hd.
Qed.

(** The path [save_upload_file] and [convert_uploaded_file] make of a
    file id and an extension keeps the extension. *)
Lemma upload_path_extension (file_id ext : string) :
  file_id ≠ "" ->
  has "."%char file_id = false -> has "/"%char file_id = false ->
  ext = "" \/ (exists rest, ext = String "." rest
                 /\ has "."%char rest = false /\ has "/"%char rest = false) ->
  Py.splitext (path_join UPLOAD_DIR (file_id +:+ ext))
  = (path_join UPLOAD_DIR file_id, ext).
Proof.
  intros Hne Hdot Hsl Hext.
  assert (has "/"%char ext = false) as Hsl'.
  { destruct Hext as [->|(rest & -> & _ & ?)]; [done|].
    by rewrite has_cons. }
  unfold path_join, UPLOAD_DIR.
  rewrite !startswith_slash by (by rewrite ?has_app, ?Hsl, ?Hsl').
  change ("uploads" +:+ "/" +:+ ?x) with ("uploads/" +:+ x).
  unfold Py.splitext, Py.rfind.
  rewrite (rfind_go_app "/"), (rfind_go_absent "/" (file_id +:+ ext))
    by (by rewrite has_app, Hsl, Hsl').
  change (Py.rfind_go "/" "uploads/" 0 None) with (Some 7).
  rewrite (rfind_go_app "."), (rfind_go_app "." file_id),
    (rfind_go_absent "." file_id) by done.
  change (Py.rfind_go "." "uploads/" 0 None) with (@None nat).
  change (String.length "uploads/") with 8. cbn [Nat.add].
  destruct Hext as [->|(rest & -> & Hrest & _)].
  - cbn [Py.rfind_go]. by rewrite string_app_nil_r.
  - cbn [Py.rfind_go]. rewrite rfind_go_absent by done.
    change (Ascii.eqb "." ".") with true. cbv beta iota.
    change (S (S (S (S (S (S (S (S (String.length file_id)))))))))
      with (8 + String.length file_id).
    assert (Py.has_non_dot ("uploads/" +:+ file_id +:+ String "." rest)
              8 (8 + String.length file_id - 8) = true) as ->.
    { destruct file_id as [|d file_id]; [done|].
      rewrite has_cons in Hdot. apply orb_false_elim in Hdot as [Hd _].
      replace (8 + String.length (String d file_id) - 8)
        with (S (String.length file_id)) by (cbn [String.length]; lia).
      cbn [Py.has_non_dot].
      change (Py.drop_str 8 ("uploads/" +:+ ?x)) with x.
      change (String d file_id +:+ ?x) with (String d (file_id +:+ x)).
      rewrite Ascii.eqb_sym in Hd. cbv beta iota. by rewrite Hd. }
    replace (8 <=? 8 + String.length file_id) with true
      by (symmetry; apply Nat.leb_le; lia).
    cbn [andb]. f_equal.
    + change (Py.take_str (8 + ?n) ("uploads/" +:+ ?x))
        with ("uploads/" +:+ Py.take_str n x).
      f_equal. apply take_str_app.
    + change (Py.drop_str (8 + ?n) ("uploads/" +:+ ?x))
        with (Py.drop_str n x).
      apply drop_str_app.
Qed.

Lemma basename_output (file_id format : string) :
  has "/"%char file_id = false -> format ∈ default_formats ->
  basename (output_path file_id format) = file_id +:+ "." +:+ format.
Proof.
  intros Hid Hf.
  assert (has "/"%char (file_id +:+ "." +:+ format) = false) as Hname.
  { rewrite !has_app, Hid. unfold default_formats in Hf.
    repeat (apply elem_of_cons in Hf as [->|Hf]; [done|]).
    by apply elem_of_nil in Hf. }
  unfold output_path, path_join, CONVERTED_DIR, basename, Py.rfind.
  rewrite startswith_slash by done.
  change ("converted" +:+ "/" +:+ ?x) with ("converted/" +:+ x).
  rewrite rfind_go_app, (rfind_go_absent _ (file_id +:+ "." +:+ format))
    by done.
  change (Py.rfind_go "/" "converted/" 0 None) with (Some 9).
  done.
Qed.

End PathFacts.

(** ** The response: rows and download links *)
Module ResponseFacts.
Import Exn Pandas Convert ExnFacts PandasFacts ConvertFacts Lines Endpoints.
Import ConvertExtras PathFacts.

(** *** The rows of the response *)









(** *** From the response to the download *)

Lemma files_after_Run (files : Files) (tr : list event) :
  files_after files (Run <$> tr)
  = files ∪ list_to_set (omap written_path tr).
Proof.
  unfold files_after. revert files.
  induction tr as [|ev tr IH]; intros files.
  - cbn. by rewrite union_empty_r_L.
  - rewrite fmap_cons. cbn [fold_left]. rewrite IH.
    cbn [apply_action omap list_omap].
    destruct (written_path ev); cbn [list_to_set]; [|done].
    by rewrite (assoc_L (∪)).
Qed.

Lemma written_path_write_event (data : Frame) file_id format :
  written_path (write_event data file_id format)
  = Some (output_path file_id format).
Proof. unfold write_event. by repeat case_decide. Qed.

Lemma convert_file_exports w file_path file_id output_formats tr
    (data : Frame) :
  extract w file_path = (tr, Ok data) ->
  convert_file w file_path file_id output_formats
  = (tr ++ (write_event data file_id <$> supported_formats output_formats),
     Ok {| status := "success";
           message := "File converted successfully";
           file_id := file_id;
           headers := columns data;
           rows := front_row (columns data) <$> iterrows data;
           converted_files :=
             download_link file_id
             <$> unique (supported_formats output_formats) |}).
Proof.
  intros Hdata. unfold convert_file. rewrite Hdata.
  unfold mbind, M_mbind, M_bind. cbv beta iota.
  rewrite export_formats_supported. fold (supported_formats output_formats).
  change (@nil (string * string))
    with ((fun k => (k, output_path file_id k)) <$> []).
  rewrite export_formats_listed
    by (unfold supported_formats; apply Forall_forall;
        intros f Hf; by apply list_elem_of_filter in Hf as [? _]).
  rewrite add_keys_unique by constructor.
  unfold ret. cbn [app]. rewrite app_nil_r. do 2 f_equal.
  by rewrite <- list_fmap_compose.
Qed.

(** Every link a conversion lists can be followed: for a file id
    without a separator, the link is [/download/] and a name under
    which [download_file] finds and serves the very path the export of
    that format was written to. *)
Theorem converted_then_downloaded (w : World) (files : Files)
    (file_path file_id : string) (output_formats : list string)
    (tr : list event) (resp : Response) (format link : string) :
  Py.contains "/" file_id = false ->
  convert_file w file_path file_id output_formats = (tr, Ok resp) ->
  (format, link) ∈ converted_files resp ->
  exists name,
    link = "/download/" +:+ name
    /\ download_file (files_after files (Run <$> tr)) name
       = Ok (output_path file_id format)
    /\ exists ev, ev ∈ tr /\ written_path ev = Some (output_path file_id format).
Proof.
  intros Hid Hconv Hlink.
  destruct (extract w file_path) as [tr0 [data|e]] eqn:Hdata.
  2: { unfold convert_file in Hconv. rewrite Hdata in Hconv. done. }
  rewrite (convert_file_exports _ _ _ _ _ _ Hdata) in Hconv.
  injection Hconv as <- <-. cbn [converted_files] in Hlink.
  apply list_elem_of_fmap in Hlink as (f & [= -> ->] & Hf).
  rewrite elem_of_unique in Hf. pose proof Hf as Hf'.
  apply list_elem_of_filter in Hf' as [Hdef _].
  rewrite basename_output by done.
  assert (exists ev,
             ev ∈ tr0 ++ (write_event data file_id
                          <$> supported_formats output_formats)
             /\ written_path ev = Some (output_path file_id f))
    as (ev & Hev & Hpath).
  { exists (write_event data file_id f). split.
    - apply elem_of_app. right. by apply list_elem_of_fmap_2.
    - apply written_path_write_event. }
  exists (file_id +:+ "." +:+ f). split; [done|]. split; [|by exists ev].
  unfold download_file.
  change (download_path (file_id +:+ "." +:+ f))
    with (output_path file_id f).
  rewrite decide_True; [done|].
  rewrite files_after_Run. apply elem_of_union_r, elem_of_list_to_set.
  apply list_elem_of_omap. by exists ev.
Qed.

Lemma converted_then_downloaded_witness :
  exists name,
    "/download/ledger.xml" = "/download/" +:+ name
    /\ download_file
         (files_after ∅
            (Run <$> [ExtractTables "uploads/ledger.pdf";
                      WriteXml
                        (create_tally_xml_root
                           {| columns := [Val "a"; Val "b"];
                              values := [ [Val "1"; Val "2"];
                                          [Val "4"; Val "3"] ] |})
                        "converted/ledger.xml"])) name
       = Ok "converted/ledger.xml"
    /\ exists ev,
         ev ∈ [ExtractTables "uploads/ledger.pdf";
               WriteXml
                 (create_tally_xml_root
                    {| columns := [Val "a"; Val "b"];
                       values := [ [Val "1"; Val "2"];
                                   [Val "4"; Val "3"] ] |})
                 "converted/ledger.xml"]
         /\ written_path ev = Some "converted/ledger.xml".
Proof.
  refine (converted_then_downloaded Samples.sample_world ∅
            "uploads/ledger.pdf" "ledger" ["xml"] _ _ "xml"
            "/download/ledger.xml" eq_refl eq_refl _).
  cbn [converted_files]. apply list_elem_of_singleton. reflexivity.
Defined.

End ResponseFacts.

(** ** The endpoints: uploads, status codes and what stays on disk *)
Module EndpointFacts.
Import Exn Pandas Convert ExnFacts ConvertFacts Lines Endpoints.
Import PathFacts ResponseFacts.

(** *** What becomes of the upload *)

Lemma files_after_app files acts1 acts2 :
  files_after files (acts1 ++ acts2)
  = files_after (files_after files acts1) acts2.
Proof. apply fold_left_app. Qed.

Lemma files_after_Remove files acts path :
  path ∉ files_after files (acts ++ [Remove path]).
Proof.
  rewrite files_after_app. cbn [files_after fold_left apply_action].
  apply not_elem_of_difference. right. by apply elem_of_singleton.
Qed.

Lemma files_after_grows files tr path :
  path ∈ files -> path ∈ files_after files (Run <$> tr).
Proof. intros Hin. rewrite files_after_Run. by apply elem_of_union_l. Qed.

(** [POST /convert] removes the upload it saved when the conversion
    succeeds and leaves it in the upload directory when the conversion
    fails; when saving fails, nothing is left at the path. *)
Theorem new_file_upload_fate (w : World) (files : Files)
    (file_id filename : string) (outcome : write_outcome)
    (output_formats : list string) (acts : list action)
    (resp : JSONResponse) :
  convert_new_file w files file_id filename outcome output_formats
  = (acts, resp) ->
  (status_code resp = 200
   -> upload_path file_id filename ∉ files_after files acts)
  /\ (outcome = Written -> status_code resp <> 200
      -> upload_path file_id filename ∈ files_after files acts)
  /\ (outcome <> Written
      -> status_code resp = 500
         /\ upload_path file_id filename ∉ files_after files acts).
Proof.
  unfold convert_new_file, save_upload_file.
  destruct outcome as [|detail|detail].
  - destruct (convert_file w _ file_id output_formats) as [tr [result|e]].
    + intros [= <- <-]. split; [|split; [done|done]]. intros _.
      change (Save ?p :: (?l ++ ?r)) with ((Save p :: l) ++ r).
      apply files_after_Remove.
    + intros [= <- <-]. split; [|split; [|done]].
      * by destruct e.
      * intros _ _. unfold files_after. cbn [fold_left apply_action].
        apply files_after_grows, elem_of_union_r. by apply elem_of_singleton.
  - intros [= <- <-]. split; [done|]. split; [done|]. intros _.
    split; [done|]. case_decide as Hin; [|done].
    apply (files_after_Remove files []).
  - intros [= <- <-]. split; [done|]. split; [done|]. intros _.
    split; [done|]. apply (files_after_Remove files [Save _]).
Qed.

Lemma new_file_upload_fate_witness :
  upload_path "f81d" "notes.txt" ∈ files_after ∅ [Save "uploads/f81d.txt"].
Proof.
  refine (proj1 (proj2 (new_file_upload_fate Samples.sample_world ∅
                          "f81d" "notes.txt" Written ["csv"]
                          [Save "uploads/f81d.txt"]
                          {| status_code := 500;
                             content := Failure "Internal server error: 400: Unsupported file format" |}
                          _)) eq_refl _).
  - reflexivity.
  - cbn. lia.
Defined.

(** *** Files the conversion does not support *)

Lemma saved_extension (file_id filename : string) :
  file_id ≠ "" ->
  Py.contains "." file_id = false -> Py.contains "/" file_id = false ->
  extension_of (upload_path file_id filename) = extension_of filename.
Proof.
  intros Hne Hdot Hsl. unfold extension_of, upload_path.
  by rewrite upload_path_extension by (done || apply splitext_ext_shape).
Qed.

(** [POST /convert] with a file of an unsupported type: the file is
    saved, the 400 of [convert_file] comes back as status 500, and the
    only thing done is the save, so the file stays where it was put. *)
Theorem new_file_unsupported (w : World) (files : Files)
    (file_id filename : string) (output_formats : list string) :
  file_id ≠ "" ->
  Py.contains "." file_id = false -> Py.contains "/" file_id = false ->
  ~ supported_extension filename ->
  convert_new_file w files file_id filename Written output_formats
  = ([Save (upload_path file_id filename)],
     {| status_code := 500;
        content := Failure "Internal server error: 400: Unsupported file format" |}).
Proof.
  intros Hne Hdot Hsl Hext.
  unfold convert_new_file, save_upload_file, convert_file.
  rewrite extract_unsupported; [done|].
  unfold supported_extension. by rewrite saved_extension.
Qed.

Lemma new_file_unsupported_witness :
  convert_new_file Samples.sample_world ∅ "f81d" "notes.txt" Written
    default_formats
  = ([Save "uploads/f81d.txt"],
     {| status_code := 500;
        content := Failure "Internal server error: 400: Unsupported file format" |}).
Proof.
  apply (new_file_unsupported Samples.sample_world ∅ "f81d" "notes.txt"
           default_formats); [done|reflexivity|reflexivity|].
  refine (bool_decide_unpack _ _). by vm_compute.
Defined.

End EndpointFacts.

(** ** From the upload to its conversion *)
Module UploadFacts.
Import Exn Pandas Convert ExnFacts ConvertFacts Lines Endpoints.
Import PathFacts ResponseFacts EndpointFacts.

(** *** Finding the upload again *)

Lemma upload_extensions_shape ext :
  ext ∈ upload_extensions ->
  ext = ""
  \/ exists rest, ext = String "." rest
                  /\ Py.contains "." rest = false
                  /\ Py.contains "/" rest = false.
Proof.
  unfold upload_extensions. intros Hext. right.
  repeat (apply elem_of_cons in Hext as [->|Hext]; [by eexists|]).
  by apply elem_of_nil in Hext.
Qed.

(** With a plain file id, the path tells the extension it was made
    with. *)
Lemma candidate_inj (file_id ext1 ext2 : string) :
  file_id ≠ "" ->
  Py.contains "." file_id = false -> Py.contains "/" file_id = false ->
  (ext1 = "" \/ exists rest, ext1 = String "." rest
                  /\ Py.contains "." rest = false
                  /\ Py.contains "/" rest = false) ->
  (ext2 = "" \/ exists rest, ext2 = String "." rest
                  /\ Py.contains "." rest = false
                  /\ Py.contains "/" rest = false) ->
  path_join UPLOAD_DIR (file_id +:+ ext1)
  = path_join UPLOAD_DIR (file_id +:+ ext2) ->
  ext1 = ext2.
Proof.
  intros Hne Hdot Hsl H1 H2 Heq.
  pose proof (upload_path_extension file_id ext1 Hne Hdot Hsl H1) as E1.
  pose proof (upload_path_extension file_id ext2 Hne Hdot Hsl H2) as E2.
  rewrite Heq, E2 in E1. by injection E1.
Qed.

Lemma filter_fmap_only {A B} (f : A -> B) (P : B -> Prop)
    `{!forall y, Decision (P y)} (l : list A) (x : A) :
  NoDup l -> x ∈ l -> (forall y, y ∈ l -> P (f y) <-> y = x) ->
  filter P (f <$> l) = [f x].
Proof.
  intros Hnd. induction Hnd as [|a l Ha Hnd IH]; intros Hx HP.
  - by apply elem_of_nil in Hx.
  - rewrite fmap_cons. apply elem_of_cons in Hx as [->|Hx].
    + rewrite filter_cons_True by (apply HP; [by left|done]).
      f_equal. apply ValidateFacts.filter_none, Forall_fmap, Forall_forall.
      intros y Hy. cbn. rewrite HP by (by right). by intros ->.
    + rewrite filter_cons_False.
      * apply IH; [done|]. intros y Hy. apply HP. by right.
      * rewrite HP by (by left). by intros ->.
Qed.

(** An upload saved under one of the four lower-case extensions is the
    file [POST /convert/{file_id}] converts: the endpoint runs
    [convert_file] on the saved path and removes it on success. *)
Theorem uploaded_then_converted (w : World) (files : Files)
    (file_id filename : string) (output_formats : list string) :
  file_id ≠ "" ->
  Py.contains "." file_id = false -> Py.contains "/" file_id = false ->
  snd (Py.splitext filename) ∈ upload_extensions ->
  Forall (fun file_path => file_path ∉ files) (candidates file_id) ->
  convert_uploaded_file w
    (files_after files (fst (save_upload_file files file_id filename Written)))
    file_id output_formats
  = match convert_file w (upload_path file_id filename) file_id
            output_formats with
    | (tr, Ok result) =>
        ((Run <$> tr) ++ [Remove (upload_path file_id filename)],
         {| status_code := 200; content := Converted result |})
    | (tr, Raise e) => (Run <$> tr, on_error e)
    end.
Proof.
  intros Hne Hdot Hsl Hext Hfresh.
  unfold convert_uploaded_file, candidates.
  rewrite (filter_fmap_only _ _ upload_extensions (snd (Py.splitext filename)));
    [done| |done|].
  - refine (bool_decide_unpack _ _). by vm_compute.
  - intros ext Hin. cbn [save_upload_file fst files_after fold_left apply_action].
    rewrite elem_of_union, elem_of_singleton. split.
    + intros [Hold|Hsame].
      * rewrite Forall_forall in Hfresh. exfalso.
        apply (Hfresh (path_join UPLOAD_DIR (file_id +:+ ext))); [|done].
        unfold candidates. apply list_elem_of_fmap. by exists ext.
      * apply (candidate_inj file_id); auto using upload_extensions_shape.
    + intros ->. by right.
Qed.

Lemma uploaded_then_converted_witness :
  convert_uploaded_file Samples.sample_world
    (files_after ∅ (fst (save_upload_file ∅ "f81d" "ledger.pdf" Written)))
    "f81d" ["pdf"]
  = match convert_file Samples.sample_world (upload_path "f81d" "ledger.pdf")
            "f81d" ["pdf"] with
    | (tr, Ok result) =>
        ((Run <$> tr) ++ [Remove (upload_path "f81d" "ledger.pdf")],
         {| status_code := 200; content := Converted result |})
    | (tr, Raise e) => (Run <$> tr, on_error e)
    end.
Proof.
  apply (uploaded_then_converted Samples.sample_world ∅ "f81d" "ledger.pdf"
           ["pdf"]); [done|reflexivity|reflexivity| |].
  - refine (bool_decide_unpack _ _). by vm_compute.
  - unfold candidates, upload_extensions. cbn [fmap list_fmap].
    repeat constructor; apply not_elem_of_empty.
Defined.

(** An upload whose extension is supported but not written in lower
    case passes the check of [upload_file] and is saved under its own
    extension; [POST /convert/{file_id}] then looks for the four
    lower-case names only, does not find it, and answers status 500
    for the 404 it raised. *)
Theorem other_case_upload_not_found (w : World) (files : Files)
    (content file_id filename : string) (output_formats : list string) :
  Py.is_empty content = false ->
  file_id ≠ "" ->
  Py.contains "." file_id = false -> Py.contains "/" file_id = false ->
  supported_extension filename ->
  snd (Py.splitext filename) ∉ upload_extensions ->
  Forall (fun file_path => file_path ∉ files) (candidates file_id) ->
  upload_file content filename (Ok file_id)
  = ([SaveUpload filename], Ok file_id)
  /\ convert_uploaded_file w
       (files_after files
          (fst (save_upload_file files file_id filename Written)))
       file_id output_formats
     = ([], {| status_code := 500;
               content := Failure "Internal server error: 404: File not found" |}).
Proof.
  intros Hcontent Hne Hdot Hsl Hsup Hext Hfresh. split.
  - unfold upload_file. rewrite Hcontent.
    by rewrite bool_decide_eq_true_2.
  - unfold convert_uploaded_file.
    rewrite ValidateFacts.filter_none; [done|].
    rewrite Forall_forall in Hfresh. apply Forall_forall.
    intros file_path Hcand. pose proof (Hfresh _ Hcand) as Hold.
    unfold candidates in Hcand.
    apply list_elem_of_fmap in Hcand as (ext & -> & Hin).
    cbn [save_upload_file fst files_after fold_left apply_action].
    rewrite elem_of_union, elem_of_singleton. intros [?|Hsame]; [done|].
    apply Hext. rewrite <- (candidate_inj file_id ext _ Hne Hdot Hsl
                              (upload_extensions_shape ext Hin)
                              (splitext_ext_shape filename) Hsame).
    done.
Qed.

Lemma other_case_upload_not_found_witness :
  upload_file "%PNG" "SCAN.PNG" (Ok "f81d")
  = ([SaveUpload "SCAN.PNG"], Ok "f81d")
  /\ convert_uploaded_file Samples.sample_world
       (files_after ∅ (fst (save_upload_file ∅ "f81d" "SCAN.PNG" Written)))
       "f81d" default_formats
     = ([], {| status_code := 500;
               content := Failure "Internal server error: 404: File not found" |}).
Proof.
  apply (other_case_upload_not_found Samples.sample_world ∅ "%PNG" "f81d"
           "SCAN.PNG" default_formats);
    [reflexivity|done|reflexivity|reflexivity| | |].
  - refine (bool_decide_unpack _ _). by vm_compute.
  - refine (bool_decide_unpack _ _). by vm_compute.
  - unfold candidates, upload_extensions. cbn [fmap list_fmap].
    repeat constructor; apply not_elem_of_empty.
Defined.

End UploadFacts.

(** ** Saved edits: what is written and where *)
Module EditFacts.
Import Exn Pandas Exporter ExnFacts ExporterFacts ETFacts Edits.

Section SaveEdits.
Context {Any PyFloat : Type}.
Variable str : Any -> string.
Variables to_excel to_csv : DataFrame string Any -> result string.

Local Abbreviation TableData := (TableData Any PyFloat).
Implicit Types (data : TableData).



Lemma base_path_relative (fileId : string) :
  Py.startswith "/" fileId = false ->
  base_path fileId = "corrected/" +:+ fileId +:+ "_corrected".
Proof.
  intros Hid. unfold base_path, Convert.path_join.
  destruct fileId as [|c fileId]; [done|].
  change (String c fileId +:+ "_corrected")
    with (String c (fileId +:+ "_corrected")).
  cbn [Py.startswith] in *. apply andb_false_iff in Hid as [->|Hid]; done.
Qed.

Lemma base_path_absolute (fileId : string) :
  Py.startswith "/" fileId = true ->
  base_path fileId = fileId +:+ "_corrected".
Proof.
  intros Hid. unfold base_path, Convert.path_join.
  destruct fileId as [|c fileId]; [done|].
  change (String c fileId +:+ "_corrected")
    with (String c (fileId +:+ "_corrected")).
  cbn [Py.startswith] in *. apply andb_true_iff in Hid as [-> _]. done.
Qed.

Lemma corrected_path (fileId ext : string) :
  Py.startswith "/" fileId = false ->
  base_path fileId +:+ String "." ext
  = "corrected/" +:+ fileId +:+ "_corrected." +:+ ext.
Proof.
  intros Hid. rewrite base_path_relative by done.
  change ("corrected/" +:+ ?x) with ("corrected" +:+ "/" +:+ x).
  rewrite !string_app_assoc. do 3 f_equal.
Qed.

(** What [save_edits] leaves behind and answers, step by step. *)
Lemma save_edits_written (fileId : string) data (logged : result unit)
    ws r :
  save_edits str to_excel to_csv fileId data logged = (ws, r) ->
  ws.*1 `prefix_of` [base_path fileId +:+ ".xlsx";
                     base_path fileId +:+ ".csv";
                     base_path fileId +:+ ".xml"]
  /\ forall links,
       r = Ok links ->
       links = downloads fileId
       /\ ws.*1 = [base_path fileId +:+ ".xlsx";
                   base_path fileId +:+ ".csv";
                   base_path fileId +:+ ".xml"].
Proof.
  unfold save_edits.
  destruct (save_as_xlsx to_excel data) as [xlsx|e1].
  2: { intros [= <- <-]. split; [by eexists|done]. }
  destruct (save_as_csv to_csv data) as [csv|e2].
  2: { intros [= <- <-]. split; [by eexists|done]. }
  destruct (save_as_xml str data) as [xml|e3].
  2: { intros [= <- <-]. split; [by eexists|done]. }
  destruct logged as [[]|e4]; intros [= <- <-].
  - split; [by exists []|]. by intros links [= <-].
  - split; [by exists []|done].
Qed.

(** After [POST /api/save-edits] answered with its downloads, each of
    the three links names a format for which
    [GET /api/download/{file_id}/{format}] finds a file the save wrote,
    as long as the file id does not start with a separator. *)
Theorem saved_edits_downloadable (files : gset string) (fileId : string)
    data (logged : result unit) ws links :
  Py.startswith "/" fileId = false ->
  save_edits str to_excel to_csv fileId data logged = (ws, Ok links) ->
  forall format,
    format ∈ ["xlsx"; "csv"; "xml"] ->
    (format, "/api/download/" +:+ fileId +:+ "/" +:+ format) ∈ links
    /\ exists file_path,
         download_file (files ∪ list_to_set ws.*1) fileId format
         = Ok file_path
         /\ file_path ∈ ws.*1.
Proof.
  intros Hid Hsave format Hformat.
  apply save_edits_written in Hsave as [_ Hok].
  destruct (Hok links eq_refl) as [-> Hws]. clear Hok.
  rewrite !corrected_path in Hws by done.
  assert ("corrected/" +:+ fileId +:+ "_corrected." +:+ format ∈ ws.*1)
    as Hin.
  { rewrite Hws.
    repeat (apply elem_of_cons in Hformat as [->|Hformat];
            [solve [repeat first [apply list_elem_of_here
                                 |apply list_elem_of_further]]|]).
    by apply elem_of_nil in Hformat. }
  split.
  - unfold downloads.
    repeat (apply elem_of_cons in Hformat as [->|Hformat];
            [solve [repeat first [apply list_elem_of_here
                                 |apply list_elem_of_further]]|]).
    by apply elem_of_nil in Hformat.
  - eexists. split; [|exact Hin].
    unfold download_file. rewrite bool_decide_eq_true_2 by done.
    rewrite decide_True; [done|].
    apply elem_of_union_r. by apply elem_of_list_to_set.
Qed.

(** A file id that starts with a separator takes the files out of the
    [corrected] directory: whatever [POST /api/save-edits] writes, it
    writes next to the path the payload names. *)
Theorem save_edits_absolute_id (fileId : string) data
    (logged : result unit) ws r :
  Py.startswith "/" fileId = true ->
  save_edits str to_excel to_csv fileId data logged = (ws, r) ->
  ws.*1 `prefix_of` [fileId +:+ "_corrected.xlsx";
                     fileId +:+ "_corrected.csv";
                     fileId +:+ "_corrected.xml"]
  /\ (forall links, r = Ok links ->
        ws.*1 = [fileId +:+ "_corrected.xlsx";
                 fileId +:+ "_corrected.csv";
                 fileId +:+ "_corrected.xml"]).
Proof.
  intros Hid Hsave. apply save_edits_written in Hsave as [Hpre Hok].
  rewrite base_path_absolute, !string_app_assoc in Hpre, Hok by done.
  split; [done|]. intros links Hr. by destruct (Hok links Hr).
Qed.

End SaveEdits.


Lemma saved_edits_downloadable_witness :
  let ws := fst (save_edits id Samples.plain_lines Samples.plain_lines
                   "f81d" Samples.ledger (Ok tt)) in
  ("csv", "/api/download/f81d/csv") ∈ downloads "f81d"
  /\ exists file_path,
       download_file (∅ ∪ list_to_set ws.*1) "f81d" "csv" = Ok file_path
       /\ file_path ∈ ws.*1.
Proof.
  intros ws.
  refine (saved_edits_downloadable id Samples.plain_lines Samples.plain_lines
            ∅ "f81d" Samples.ledger (Ok tt) ws (downloads "f81d")
            eq_refl _ "csv" _).
  - vm_compute. reflexivity.
  - right. left.
Defined.

Lemma save_edits_absolute_id_witness :
  let saved := save_edits id Samples.plain_lines Samples.plain_lines
                 "/tmp/x" Samples.ledger (Ok tt) in
  (fst saved).*1 `prefix_of` ["/tmp/x_corrected.xlsx"; "/tmp/x_corrected.csv";
                              "/tmp/x_corrected.xml"]
  /\ (forall links,
        snd saved = Ok links ->
        (fst saved).*1 = ["/tmp/x_corrected.xlsx"; "/tmp/x_corrected.csv";
                          "/tmp/x_corrected.xml"]).
Proof.
  intros saved.
  refine (save_edits_absolute_id id Samples.plain_lines Samples.plain_lines
            "/tmp/x" Samples.ledger (Ok tt) (fst saved) (snd saved)
            eq_refl _).
  apply surjective_pairing.
Defined.

End EditFacts.

(** ** The XML a conversion writes *)
Module ConversionXmlFacts.
Import Exn Pandas Convert ETFacts XmlExportFacts Lines ConvertExtras.

(** *** The XML export of a conversion *)





(** A label with a space in it gives a document that is not
    well-formed. *)
Example conversion_xml_broken_label :
  ET.well_formed
    (create_tally_xml_root
       {| columns := [Val "Invoice No"; Val "Amount"];
          values := [ [Val "7"; Val "100"] ] |}) = false.
Proof. reflexivity. Qed.

End ConversionXmlFacts.
